(** * Tiger Sample (src/main.cpp): the four SDL3 main callbacks

    A shallow embedding of [SDL_AppInit], [SDL_AppEvent], [SDL_AppIterate]
    and [SDL_AppQuit].  The SDL3 / SDL3_ttf / SDL3_image libraries are the
    outside world: every call into them is recorded in a trace, and what a
    call answers is read from an oracle ([World] for initialisation, the tick
    count for a frame).  Handles are addresses, [NULL] is [0]. *)

From Stdlib Require Import ZArith List Ascii String Bool Lia Sorted.
From Stdlib Require Import Floats.SpecFloat.
Import ListNotations.
Local Open Scope string_scope.
Local Open Scope Z_scope.

(** ** What the translation unit takes from its headers and its target *)

(** The SDL3 headers are not part of the repository; the constants the
    source names are fields here, so every result holds whatever values the
    headers give them.  [ANDROID] is the [#if __ANDROID__] switch, and
    [int_conversion_invalid] is what the target yields for a
    floating-to-[int] conversion whose value does not fit (the C++ standard
    leaves it undefined). *)
Class Platform : Type := {
  SDL_INIT_VIDEO : Z;
  SDL_INIT_AUDIO : Z;
  SDL_MESSAGEBOX_ERROR : Z;
  SDL_LOG_CATEGORY_CUSTOM : Z;
  SDL_WINDOW_RESIZABLE : Z;
  SDL_WINDOW_HIGH_PIXEL_DENSITY : Z;
  SDL_PROP_TEXTURE_WIDTH_NUMBER : string;
  SDL_PROP_TEXTURE_HEIGHT_NUMBER : string;
  SDL_EVENT_QUIT : Z;
  SDL_EVENT_KEY_DOWN : Z;
  SDLK_ESCAPE : Z;
  SDL_ALPHA_OPAQUE : Z;
  ANDROID : bool;
  int_conversion_invalid : Z
}.

(** The values of the SDL 3 release headers on a desktop x86-64 target,
    used to run the model on concrete inputs. *)
Definition sdl3_desktop : Platform := {|
  SDL_INIT_VIDEO := 0x20;
  SDL_INIT_AUDIO := 0x10;
  SDL_MESSAGEBOX_ERROR := 0x10;
  SDL_LOG_CATEGORY_CUSTOM := 19;
  SDL_WINDOW_RESIZABLE := 0x20;
  SDL_WINDOW_HIGH_PIXEL_DENSITY := 0x2000;
  SDL_PROP_TEXTURE_WIDTH_NUMBER := "SDL.texture.width";
  SDL_PROP_TEXTURE_HEIGHT_NUMBER := "SDL.texture.height";
  SDL_EVENT_QUIT := 0x100;
  SDL_EVENT_KEY_DOWN := 0x300;
  SDLK_ESCAPE := 0x1B;
  SDL_ALPHA_OPAQUE := 255;
  ANDROID := false;
  int_conversion_invalid := -2147483648
|}.

(** ** Machine integers and single-precision floats *)

Definition INT_MIN : Z := -2147483648.
Definition INT_MAX : Z := 2147483647.

Definition in_int (z : Z) : Prop := INT_MIN <= z <= INT_MAX.

(** Two's-complement reduction to a 32-bit [int]. *)
Definition wrap_int (z : Z) : Z := (z - INT_MIN) mod 2 ^ 32 + INT_MIN.

(** [float] is IEEE 754 binary32: 24 bits of precision, exponents below 128. *)
Definition float : Type := spec_float.

(** Conversion of an integer to [float], to nearest, ties to even. *)
Definition float_of_Z (n : Z) : float := binary_normalize 24 128 n 0 false.

(** [a / b] on [float]. *)
Definition float_div (a b : float) : float := SFdiv 24 128 a b.

(** The integer a finite float is, when it is one. *)
Definition Z_of_float (a : float) : option Z :=
  match a with
  | S754_zero _ => Some 0
  | S754_finite s m (Zneg k) =>
      if Zpos m mod 2 ^ Zpos k =? 0
      then Some (cond_Zopp s (Zpos m / 2 ^ Zpos k)) else None
  | S754_finite s m e => Some (cond_Zopp s (Zpos m * 2 ^ e))
  | _ => None
  end.

(** |m * 2^e| rounded to the nearest integer, halves going up. *)
Definition round_magnitude (m : positive) (e : Z) : Z :=
  match e with
  | Zneg k => (2 * Zpos m + 2 ^ Zpos k) / (2 * 2 ^ Zpos k)
  | _ => Zpos m * 2 ^ e
  end.

(** [std::round] on [float]: nearest integer, halfway cases away from zero.
    The result is an integer of magnitude at most 2^24 or the argument
    itself, so the conversion back to [float] is exact. *)
Definition std_round (a : float) : float :=
  match a with
  | S754_finite s m e =>
      binary_normalize 24 128 (cond_Zopp s (round_magnitude m e)) 0 s
  | _ => a
  end.

(** |m * 2^e| with its fraction dropped. *)
Definition trunc_magnitude (m : positive) (e : Z) : Z :=
  match e with
  | Zneg k => Zpos m / 2 ^ Zpos k
  | _ => Zpos m * 2 ^ e
  end.

(** [static_cast<int>] of a [float]: truncation toward zero when the value
    fits an [int]; otherwise the target's answer, brought into [int]. *)
Definition static_cast_int `{Platform} (a : float) : Z :=
  match a with
  | S754_zero _ => 0
  | S754_finite s m e =>
      let z := cond_Zopp s (trunc_magnitude m e) in
      if (INT_MIN <=? z) && (z <=? INT_MAX) then z
      else wrap_int int_conversion_invalid
  | _ => wrap_int int_conversion_invalid
  end.

(** ** Data model *)

(** Addresses of opaque library objects. *)
Definition ptr : Type := Z.
Definition NULL : ptr := 0.

(** [not p] on a pointer. *)
Definition is_null (p : ptr) : bool := p =? NULL.

Inductive SDL_AppResult : Type :=
| SDL_APP_CONTINUE
| SDL_APP_SUCCESS
| SDL_APP_FAILURE.

Record SDL_FRect : Type := {
  rect_x : float;
  rect_y : float;
  rect_w : float;
  rect_h : float
}.

Record SDL_Color : Type := { c_r : Z; c_g : Z; c_b : Z; c_a : Z }.

(** [struct AppContext] (main.cpp:17-27). *)
Record AppContext : Type := {
  window : ptr;
  renderer : ptr;
  messageTex : ptr;
  imageTex : ptr;
  messageDest : SDL_FRect;
  iteration : Z;
  app_quit : SDL_AppResult
}.

Definition set_iteration (n : Z) (app : AppContext) : AppContext :=
  {| window := window app; renderer := renderer app;
     messageTex := messageTex app; imageTex := imageTex app;
     messageDest := messageDest app; iteration := n;
     app_quit := app_quit app |}.

Definition set_app_quit (q : SDL_AppResult) (app : AppContext) : AppContext :=
  {| window := window app; renderer := renderer app;
     messageTex := messageTex app; imageTex := imageTex app;
     messageDest := messageDest app; iteration := iteration app;
     app_quit := q |}.

(** The two members of [SDL_Event] the program reads: the tag [type] and
    [key.key], the key code of the keyboard member of the union. *)
Record SDL_Event : Type := {
  type : Z;
  key_key : Z
}.

(** ** Calls into the outside world *)

Module Ext.
(** One constructor per library function (or C++ runtime operation) with
    the arguments it is given.  [SDL_DestroyTexture] is part of the
    library's interface although no path of the program calls it. *)
Inductive call : Type :=
| SDL_Init (flags : Z)
| SDL_ShowSimpleMessageBox (flags : Z) (title message : string) (win : ptr)
| SDL_GetError
| SDL_LogError (category : Z) (fmt : string)
| TTF_Init
| SDL_CreateWindow (title : string) (w h flags : Z)
| SDL_CreateRenderer (win : ptr) (name : ptr)
| SDL_GetBasePath
| TTF_OpenFont (file : string) (ptsize : Z)
| TTF_RenderText_Solid (font : ptr) (text : string) (length : Z) (fg : SDL_Color)
| SDL_CreateTextureFromSurface (ren : ptr) (surface : ptr)
| TTF_CloseFont (font : ptr)
| SDL_DestroySurface (surface : ptr)
| IMG_Load (file : string)
| SDL_GetTextureProperties (tex : ptr)
| SDL_GetNumberProperty (props : Z) (name : string) (default : Z)
| SDL_ShowWindow (win : ptr)
| SDL_GetWindowSize (win : ptr)
| SDL_GetWindowSizeInPixels (win : ptr)
| SDL_Log (fmt : string) (args : list Z)
| new_AppContext (app : AppContext)
| SDL_SetRenderVSync (ren : ptr) (vsync : Z)
| SDL_GetTicks
| cout_time (seconds : Z)
| SDL_SetRenderDrawColor (ren : ptr) (cr cg cb ca : Z)
| SDL_RenderClear (ren : ptr)
| SDL_RenderTexture (ren : ptr) (tex : ptr)
    (srcrect : option SDL_FRect) (dstrect : option SDL_FRect)
| SDL_RenderPresent (ren : ptr)
| SDL_DestroyRenderer (ren : ptr)
| SDL_DestroyWindow (win : ptr)
| SDL_DestroyTexture (tex : ptr)
| delete_AppContext (app : AppContext)
| TTF_Quit
| SDL_Quit.
End Ext.

Definition Trace : Type := list Ext.call.

(** ** A monad for a callback body

    A computation reads and writes a store of type [S] (the object behind
    the [appstate] pointer), appends to the trace, and either falls through
    with a value ([inl]) or has executed [return r] ([inr]). *)

Definition M (S A : Type) : Type :=
  S -> Trace -> (A + SDL_AppResult) * S * Trace.

Definition ret {S A} (x : A) : M S A := fun s t => (inl x, s, t).

Definition bind {S A B} (m : M S A) (k : A -> M S B) : M S B :=
  fun s t =>
    match m s t with
    | (inl x, s', t') => k x s' t'
    | (inr q, s', t') => (inr q, s', t')
    end.

(** [return q;] *)
Definition Return {S A} (q : SDL_AppResult) : M S A := fun s t => (inr q, s, t).

(** A call [c] into the world that answers [x]. *)
Definition perform {S A} (c : Ext.call) (x : A) : M S A :=
  fun s t => (inl x, s, (t ++ [c])%list).

Definition get {S} : M S S := fun s t => (inl s, s, t).
Definition put {S} (s' : S) : M S unit := fun _ t => (inl tt, s', t).

Declare Scope cb_scope.
Delimit Scope cb_scope with cb.
Notation "x <- m ;; k" := (bind m (fun x => k))
  (at level 61, m at next level, right associativity) : cb_scope.
Notation "m ;;; k" := (bind m (fun _ => k))
  (at level 61, right associativity) : cb_scope.

(** [when c m]: an [if] without [else]. *)
Definition when {S} (c : bool) (m : M S unit) : M S unit :=
  if c then m else ret tt.

(** What a callback leaves behind. *)
Record Outcome (S : Type) : Type := {
  result : SDL_AppResult;
  store : S;
  calls : Trace
}.
Arguments result {S} _.
Arguments store {S} _.
Arguments calls {S} _.

Definition run {S} (m : M S SDL_AppResult) (s : S) : Outcome S :=
  match m s [] with
  | (inl q, s', t) | (inr q, s', t) => {| result := q; store := s'; calls := t |}
  end.

(** A callback that returns nothing: the store and the trace it leaves. *)
Definition run_void {S A} (m : M S A) (s : S) : S * Trace :=
  let '(_, s', t) := m s [] in (s', t).

(** A call whose answer is not used. *)
Definition call {S} (c : Ext.call) : M S unit := perform c tt.

(** ** The program *)

Definition windowStartWidth : Z := 600.
Definition windowStartHeight : Z := 600.

(** [std::filesystem::path::operator/] for a relative right operand, with
    the separator of the generic format. *)
Fixpoint ends_with_separator (p : string) : bool :=
  match p with
  | EmptyString => true
  | String c EmptyString => Ascii.eqb c "/"%char
  | String _ rest => ends_with_separator rest
  end.

Definition path_append (base name : string) : string :=
  if ends_with_separator base then base ++ name else base ++ "/" ++ name.

(** What the libraries answer during [SDL_AppInit].  The two calls of
    [SDL_CreateTextureFromSurface] are told apart by their rank, since the
    first surface is destroyed before the second is loaded and its address
    may be used again. *)
Record World : Type := {
  ans_SDL_Init : Z -> bool;
  ans_TTF_Init : bool;
  ans_SDL_CreateWindow : string -> Z -> Z -> Z -> ptr;
  ans_SDL_CreateRenderer : ptr -> ptr -> ptr;
  ans_SDL_GetBasePath : option string;
  ans_TTF_OpenFont : string -> Z -> ptr;
  ans_TTF_RenderText_Solid : ptr -> string -> ptr;
  ans_SDL_CreateTextureFromSurface : nat -> ptr -> ptr -> ptr;
  ans_IMG_Load : string -> ptr;
  ans_SDL_GetTextureProperties : ptr -> Z;
  ans_SDL_GetNumberProperty : Z -> string -> Z -> Z;
  ans_SDL_GetWindowSize : ptr -> Z * Z;
  ans_SDL_GetWindowSizeInPixels : ptr -> Z * Z
}.

Section Callbacks.
Context `{Platform}.
Local Open Scope cb_scope.

(** main.cpp:29-33 *)
Definition SDL_Fail {S} : M S SDL_AppResult :=
  call Ext.SDL_GetError ;;;
  call (Ext.SDL_LogError SDL_LOG_CATEGORY_CUSTOM "Error %s") ;;;
  ret SDL_APP_FAILURE.

(** main.cpp:35-138.  The store is the cell [*appstate], empty on entry;
    [argc] and [argv] are not read. *)
Definition SDL_AppInit (W : World) : M (option AppContext) SDL_AppResult :=
  let init_flags := Z.lor SDL_INIT_VIDEO SDL_INIT_AUDIO in
  ok <- perform (Ext.SDL_Init init_flags) (ans_SDL_Init W init_flags) ;;
  when (negb ok)
    (call (Ext.SDL_ShowSimpleMessageBox SDL_MESSAGEBOX_ERROR "[Error]"
             "Could not initialize video and audio" NULL) ;;;
     q <- SDL_Fail ;; Return q) ;;;
  ok <- perform Ext.TTF_Init (ans_TTF_Init W) ;;
  when (negb ok) (q <- SDL_Fail ;; Return q) ;;;
  let win_flags := Z.lor SDL_WINDOW_RESIZABLE SDL_WINDOW_HIGH_PIXEL_DENSITY in
  window <- perform
    (Ext.SDL_CreateWindow "Tiger Sample" windowStartWidth windowStartHeight win_flags)
    (ans_SDL_CreateWindow W "Tiger Sample" windowStartWidth windowStartHeight win_flags) ;;
  when (is_null window)
    (call (Ext.SDL_ShowSimpleMessageBox SDL_MESSAGEBOX_ERROR "[Error]"
             "The window was not initialized!" window) ;;;
     q <- SDL_Fail ;; Return q) ;;;
  renderer <- perform (Ext.SDL_CreateRenderer window NULL)
                      (ans_SDL_CreateRenderer W window NULL) ;;
  when (is_null renderer)
    (call (Ext.SDL_ShowSimpleMessageBox SDL_MESSAGEBOX_ERROR "[Error]"
             "The renderer was not initialized!" window) ;;;
     q <- SDL_Fail ;; Return q) ;;;
  basePath <-
    (if ANDROID then ret ""
     else
       basePathPtr <- perform Ext.SDL_GetBasePath (ans_SDL_GetBasePath W) ;;
       match basePathPtr with
       | None => q <- SDL_Fail ;; Return q
       | Some p => ret p
       end) ;;
  let fontPath := path_append basePath "bitcount.ttf" in
  font <- perform (Ext.TTF_OpenFont fontPath 28) (ans_TTF_OpenFont W fontPath 28) ;;
  when (is_null font) (q <- SDL_Fail ;; Return q) ;;;
  let text := "Cute Tiger!" in
  surfaceMessage <- perform
    (Ext.TTF_RenderText_Solid font text (Z.of_nat (String.length text))
       {| c_r := 200; c_g := 100; c_b := 100; c_a := 0 |})
    (ans_TTF_RenderText_Solid W font text) ;;
  messageTex <- perform (Ext.SDL_CreateTextureFromSurface renderer surfaceMessage)
    (ans_SDL_CreateTextureFromSurface W 0%nat renderer surfaceMessage) ;;
  call (Ext.TTF_CloseFont font) ;;;
  call (Ext.SDL_DestroySurface surfaceMessage) ;;;
  let svgPath := path_append basePath "gs_tiger.svg" in
  svg_surface <- perform (Ext.IMG_Load svgPath) (ans_IMG_Load W svgPath) ;;
  tex <- perform (Ext.SDL_CreateTextureFromSurface renderer svg_surface)
    (ans_SDL_CreateTextureFromSurface W 1%nat renderer svg_surface) ;;
  call (Ext.SDL_DestroySurface svg_surface) ;;;
  messageTexProps <- perform (Ext.SDL_GetTextureProperties messageTex)
    (ans_SDL_GetTextureProperties W messageTex) ;;
  w <- perform (Ext.SDL_GetNumberProperty messageTexProps SDL_PROP_TEXTURE_WIDTH_NUMBER 0)
    (ans_SDL_GetNumberProperty W messageTexProps SDL_PROP_TEXTURE_WIDTH_NUMBER 0) ;;
  h <- perform (Ext.SDL_GetNumberProperty messageTexProps SDL_PROP_TEXTURE_HEIGHT_NUMBER 0)
    (ans_SDL_GetNumberProperty W messageTexProps SDL_PROP_TEXTURE_HEIGHT_NUMBER 0) ;;
  let text_rect :=
    {| rect_x := float_of_Z 0; rect_y := float_of_Z 0;
       rect_w := float_of_Z w; rect_h := float_of_Z h |} in
  call (Ext.SDL_ShowWindow window) ;;;
  size <- perform (Ext.SDL_GetWindowSize window) (ans_SDL_GetWindowSize W window) ;;
  bbsize <- perform (Ext.SDL_GetWindowSizeInPixels window)
    (ans_SDL_GetWindowSizeInPixels W window) ;;
  let '(width, height) := size in
  let '(bbwidth, bbheight) := bbsize in
  call (Ext.SDL_Log "Window size: %ix%i" [width; height]) ;;;
  call (Ext.SDL_Log "Backbuffer size: %ix%i" [bbwidth; bbheight]) ;;;
  when (negb (width =? bbwidth))
    (call (Ext.SDL_Log "This is a highdpi environment." [])) ;;;
  let app :=
    {| window := window; renderer := renderer; messageTex := messageTex;
       imageTex := tex; messageDest := text_rect; iteration := 0;
       app_quit := SDL_APP_CONTINUE |} in
  call (Ext.new_AppContext app) ;;;
  put (Some app) ;;;
  call (Ext.SDL_SetRenderVSync renderer (-1)) ;;;
  call (Ext.SDL_Log "Application started successfully!" []) ;;;
  Return SDL_APP_CONTINUE.

(** main.cpp:140-161.  The store is the object [appstate] points to. *)
Definition SDL_AppEvent (event : SDL_Event) : M AppContext SDL_AppResult :=
  when (type event =? SDL_EVENT_QUIT)
    (app <- get ;; put (set_app_quit SDL_APP_SUCCESS app)) ;;;
  when (type event =? SDL_EVENT_KEY_DOWN)
    (when (key_key event =? SDLK_ESCAPE)
       (app <- get ;; put (set_app_quit SDL_APP_SUCCESS app))) ;;;
  Return SDL_APP_CONTINUE.

(** [static_cast<int>(std::round(SDL_GetTicks() / 1000.f))] *)
Definition seconds_of_ticks (ticks : Z) : Z :=
  let time := float_div (float_of_Z ticks) (float_of_Z 1000) in
  static_cast_int (std_round time).

(** main.cpp:163-190.  [now] is what [SDL_GetTicks] answers in this call. *)
Definition SDL_AppIterate (now : Z) : M AppContext SDL_AppResult :=
  ticks <- perform Ext.SDL_GetTicks now ;;
  let time := float_div (float_of_Z ticks) (float_of_Z 1000) in
  let seconds := static_cast_int (std_round time) in
  app <- get ;;
  when (iteration app <? seconds)
    (call (Ext.cout_time (static_cast_int (std_round time))) ;;;
     app <- get ;; put (set_iteration (wrap_int (iteration app + 1)) app)) ;;;
  let backgroundColor := {| c_r := 255; c_g := 255; c_b := 255; c_a := 255 |} in
  app <- get ;;
  call (Ext.SDL_SetRenderDrawColor (renderer app) (c_r backgroundColor)
          (c_g backgroundColor) (c_b backgroundColor) SDL_ALPHA_OPAQUE) ;;;
  call (Ext.SDL_RenderClear (renderer app)) ;;;
  call (Ext.SDL_RenderTexture (renderer app) (imageTex app) None None) ;;;
  call (Ext.SDL_RenderTexture (renderer app) (messageTex app) None
          (Some (messageDest app))) ;;;
  call (Ext.SDL_RenderPresent (renderer app)) ;;;
  Return (app_quit app).

(** main.cpp:192-206.  The store is what [appstate] points to, if
    anything; [delete] leaves nothing behind. *)
Definition SDL_AppQuit (result : SDL_AppResult) : M (option AppContext) unit :=
  appstate <- get ;;
  match appstate with
  | Some app =>
      call (Ext.SDL_DestroyRenderer (renderer app)) ;;;
      call (Ext.SDL_DestroyWindow (window app)) ;;;
      call (Ext.delete_AppContext app) ;;;
      put None
  | None => ret tt
  end ;;;
  call Ext.TTF_Quit ;;;
  call (Ext.SDL_Log "Application quit successfully!" []) ;;;
  call Ext.SDL_Quit.

End Callbacks.

(** ** Running the callbacks in sequence *)

Section Drivers.
Context `{Platform}.

(** [SDL_AppEvent] on each event in turn: the final state and what each
    call returned. *)
Fixpoint events (app : AppContext) (es : list SDL_Event)
  : AppContext * list SDL_AppResult :=
  match es with
  | [] => (app, [])
  | e :: es' =>
      let o := run (SDL_AppEvent e) app in
      let '(app', rs) := events (store o) es' in
      (app', result o :: rs)
  end.

(** [SDL_AppIterate] once per tick value: each call's tick with the trace
    it left. *)
Fixpoint frames (app : AppContext) (ticks : list Z) : list (Z * Trace) :=
  match ticks with
  | [] => []
  | t :: ts =>
      let o := run (SDL_AppIterate t) app in
      (t, calls o) :: frames (store o) ts
  end.

Fixpoint after_frames (app : AppContext) (ticks : list Z) : AppContext :=
  match ticks with
  | [] => app
  | t :: ts => after_frames (store (run (SDL_AppIterate t) app)) ts
  end.

(** The seconds printed by the ["time: "] lines of a trace. *)
Definition time_lines (tr : Trace) : list Z :=
  flat_map (fun c => match c with Ext.cout_time s => [s] | _ => [] end) tr.

(** Every ["time: "] line of a run, as (tick of the call, second printed). *)
Definition time_log (app : AppContext) (ticks : list Z) : list (Z * Z) :=
  flat_map (fun f => map (pair (fst f)) (time_lines (snd f))) (frames app ticks).

(** The rounded second of each call is the counter's value or one more:
    the first call finds the counter at [i]. *)
Fixpoint paced (i : Z) (ticks : list Z) : Prop :=
  match ticks with
  | [] => True
  | t :: ts =>
      (seconds_of_ticks t = i \/ seconds_of_ticks t = i + 1)
      /\ paced (seconds_of_ticks t) ts
  end.

(** Consecutive calls at most [gap] ticks apart, times not decreasing. *)
Fixpoint spaced (gap prev : Z) (ticks : list Z) : Prop :=
  match ticks with
  | [] => True
  | t :: ts => prev <= t <= prev + gap /\ spaced gap t ts
  end.

Definition is_quit_signal (e : SDL_Event) : Prop := type e = SDL_EVENT_QUIT.

Definition is_escape_press (e : SDL_Event) : Prop :=
  type e = SDL_EVENT_KEY_DOWN /\ key_key e = SDLK_ESCAPE.

(** The answers along the straight-line path of [SDL_AppInit]. *)
Definition init_flags : Z := Z.lor SDL_INIT_VIDEO SDL_INIT_AUDIO.
Definition init_window (W : World) : ptr :=
  ans_SDL_CreateWindow W "Tiger Sample" windowStartWidth windowStartHeight
    (Z.lor SDL_WINDOW_RESIZABLE SDL_WINDOW_HIGH_PIXEL_DENSITY).
Definition init_renderer (W : World) : ptr :=
  ans_SDL_CreateRenderer W (init_window W) NULL.
Definition init_basePath (W : World) : option string :=
  if ANDROID then Some "" else ans_SDL_GetBasePath W.
Definition init_font (W : World) : ptr :=
  match init_basePath W with
  | Some p => ans_TTF_OpenFont W (path_append p "bitcount.ttf") 28
  | None => NULL
  end.
Definition init_surfaceMessage (W : World) : ptr :=
  ans_TTF_RenderText_Solid W (init_font W) "Cute Tiger!".
Definition init_messageTex (W : World) : ptr :=
  ans_SDL_CreateTextureFromSurface W 0%nat (init_renderer W) (init_surfaceMessage W).
Definition init_svg_surface (W : World) : ptr :=
  match init_basePath W with
  | Some p => ans_IMG_Load W (path_append p "gs_tiger.svg")
  | None => NULL
  end.
Definition init_imageTex (W : World) : ptr :=
  ans_SDL_CreateTextureFromSurface W 1%nat (init_renderer W) (init_svg_surface W).

(** The six steps whose result [SDL_AppInit] tests. *)
Definition checked_steps_succeed (W : World) : bool :=
  ans_SDL_Init W init_flags && ans_TTF_Init W
  && negb (is_null (init_window W)) && negb (is_null (init_renderer W))
  && match init_basePath W with Some _ => true | None => false end
  && negb (is_null (init_font W)).

(** The four steps whose result it does not test. *)
Definition unchecked_steps_succeed (W : World) : bool :=
  negb (is_null (init_surfaceMessage W)) && negb (is_null (init_messageTex W))
  && negb (is_null (init_svg_surface W)) && negb (is_null (init_imageTex W)).

(** The pixel size of a texture as the library reports it: the two
    property reads of main.cpp:103-108. *)
Definition queried_width (W : World) (tex : ptr) : Z :=
  ans_SDL_GetNumberProperty W (ans_SDL_GetTextureProperties W tex)
    SDL_PROP_TEXTURE_WIDTH_NUMBER 0.
Definition queried_height (W : World) (tex : ptr) : Z :=
  ans_SDL_GetNumberProperty W (ans_SDL_GetTextureProperties W tex)
    SDL_PROP_TEXTURE_HEIGHT_NUMBER 0.

(** Whether [SDL_AppEvent] takes one of its two assignments. *)
Definition asks_to_quit (e : SDL_Event) : bool :=
  (type e =? SDL_EVENT_QUIT)
  || ((type e =? SDL_EVENT_KEY_DOWN) && (key_key e =? SDLK_ESCAPE)).

(** The five drawing calls of a frame, in the order they are issued. *)
Definition drawing_calls (app : AppContext) : Trace :=
  [Ext.SDL_SetRenderDrawColor (renderer app) 255 255 255 SDL_ALPHA_OPAQUE;
   Ext.SDL_RenderClear (renderer app);
   Ext.SDL_RenderTexture (renderer app) (imageTex app) None None;
   Ext.SDL_RenderTexture (renderer app) (messageTex app) None
     (Some (messageDest app));
   Ext.SDL_RenderPresent (renderer app)].

(** The state [SDL_AppInit] stores when it runs to its end. *)
Definition init_app (W : World) : AppContext :=
  {| window := init_window W;
     renderer := init_renderer W;
     messageTex := init_messageTex W;
     imageTex := init_imageTex W;
     messageDest :=
       {| rect_x := float_of_Z 0; rect_y := float_of_Z 0;
          rect_w := float_of_Z (queried_width W (init_messageTex W));
          rect_h := float_of_Z (queried_height W (init_messageTex W)) |};
     iteration := 0;
     app_quit := SDL_APP_CONTINUE |}.

End Drivers.

(** [from; from + 1; ...], [len] numbers. *)
Fixpoint Zseq (from : Z) (len : nat) : list Z :=
  match len with
  | O => []
  | S n => from :: Zseq (from + 1) n
  end.

(** Number of calls of a trace that satisfy [f]. *)
Definition count (f : Ext.call -> bool) (tr : Trace) : nat :=
  List.length (filter f tr).

Definition destroys_renderer (p : ptr) (c : Ext.call) : bool :=
  match c with Ext.SDL_DestroyRenderer q => q =? p | _ => false end.
Definition destroys_window (p : ptr) (c : Ext.call) : bool :=
  match c with Ext.SDL_DestroyWindow q => q =? p | _ => false end.
Definition destroys_texture (p : ptr) (c : Ext.call) : bool :=
  match c with Ext.SDL_DestroyTexture q => q =? p | _ => false end.
Definition queries_texture (c : Ext.call) : bool :=
  match c with
  | Ext.SDL_GetTextureProperties _ | Ext.SDL_GetNumberProperty _ _ _ => true
  | _ => false
  end.
Definition is_drawing (c : Ext.call) : bool :=
  match c with
  | Ext.SDL_SetRenderDrawColor _ _ _ _ _ | Ext.SDL_RenderClear _
  | Ext.SDL_RenderTexture _ _ _ _ | Ext.SDL_RenderPresent _ => true
  | _ => false
  end.

(** ** The renderer as a painter

    main.cpp:183 relies on the renderer following the painter's algorithm:
    a draw overwrites what earlier draws left at the pixels it covers.  This
    is that reading of the drawing calls, for one renderer.  [sample tex dst
    p] is the colour that drawing texture [tex] with destination [dst]
    ([None]: the whole target) puts at pixel [p], if it covers [p]. *)
Section Painter.
Variable Pixel : Type.
Variable sample : ptr -> option SDL_FRect -> Pixel -> option SDL_Color.

Record Screen : Type := {
  draw_color : SDL_Color;
  backbuffer : Pixel -> SDL_Color;
  presented : Pixel -> SDL_Color
}.

Definition paint (s : Screen) (c : Ext.call) : Screen :=
  match c with
  | Ext.SDL_SetRenderDrawColor _ cr cg cb ca =>
      {| draw_color := {| c_r := cr; c_g := cg; c_b := cb; c_a := ca |};
         backbuffer := backbuffer s; presented := presented s |}
  | Ext.SDL_RenderClear _ =>
      {| draw_color := draw_color s;
         backbuffer := fun _ => draw_color s; presented := presented s |}
  | Ext.SDL_RenderTexture _ tex _ dst =>
      {| draw_color := draw_color s;
         backbuffer := fun p =>
           match sample tex dst p with
           | Some c => c
           | None => backbuffer s p
           end;
         presented := presented s |}
  | Ext.SDL_RenderPresent _ =>
      {| draw_color := draw_color s;
         backbuffer := backbuffer s; presented := backbuffer s |}
  | _ => s
  end.

Definition paint_all (s : Screen) (tr : Trace) : Screen := fold_left paint tr s.
End Painter.
Arguments draw_color {Pixel} _.
Arguments backbuffer {Pixel} _ _.
Arguments presented {Pixel} _ _.
Arguments paint {Pixel} _ _ _.
Arguments paint_all {Pixel} _ _ _.

(** ** The properties under test, as the specification words them *)

(** No second is printed twice in a run. *)
Definition no_second_twice `{Platform} (app : AppContext) (ticks : list Z) : Prop :=
  NoDup (map snd (time_log app ticks)).

(** Initialisation is all-or-nothing over its ten acquisition steps: when
    one of them fails the result is failure and no state is stored. *)
Definition init_all_or_nothing `{Platform} (W : World) : Prop :=
  checked_steps_succeed W && unchecked_steps_succeed W = false ->
  result (run (SDL_AppInit W) None) = SDL_APP_FAILURE
  /\ store (run (SDL_AppInit W) None) = None.

(** ** Concrete worlds *)

(** A desktop run in which every library call succeeds; the text texture
    is 187 x 34 pixels. *)
Definition world_ok : World := {|
  ans_SDL_Init := fun _ => true;
  ans_TTF_Init := true;
  ans_SDL_CreateWindow := fun _ _ _ _ => 0x1000;
  ans_SDL_CreateRenderer := fun _ _ => 0x2000;
  ans_SDL_GetBasePath := Some "/opt/tiger/";
  ans_TTF_OpenFont := fun _ _ => 0x3000;
  ans_TTF_RenderText_Solid := fun _ _ => 0x4000;
  ans_SDL_CreateTextureFromSurface := fun n _ surface =>
    if is_null surface then NULL
    else match n with O => 0x5000 | _ => 0x6000 end;
  ans_IMG_Load := fun _ => 0x4000;
  ans_SDL_GetTextureProperties := fun tex => if is_null tex then 0 else 7;
  ans_SDL_GetNumberProperty := fun props name default =>
    if props =? 7
    then (if String.eqb name "SDL.texture.width" then 187 else 34)
    else default;
  ans_SDL_GetWindowSize := fun _ => (600, 600);
  ans_SDL_GetWindowSizeInPixels := fun _ => (1200, 1200)
|}.

(** The same run with [gs_tiger.svg] absent: [IMG_Load] answers [NULL], and
    so does the texture upload that is handed the null surface. *)
Definition world_missing_image : World := {|
  ans_SDL_Init := ans_SDL_Init world_ok;
  ans_TTF_Init := ans_TTF_Init world_ok;
  ans_SDL_CreateWindow := ans_SDL_CreateWindow world_ok;
  ans_SDL_CreateRenderer := ans_SDL_CreateRenderer world_ok;
  ans_SDL_GetBasePath := ans_SDL_GetBasePath world_ok;
  ans_TTF_OpenFont := ans_TTF_OpenFont world_ok;
  ans_TTF_RenderText_Solid := ans_TTF_RenderText_Solid world_ok;
  ans_SDL_CreateTextureFromSurface := ans_SDL_CreateTextureFromSurface world_ok;
  ans_IMG_Load := fun _ => NULL;
  ans_SDL_GetTextureProperties := ans_SDL_GetTextureProperties world_ok;
  ans_SDL_GetNumberProperty := ans_SDL_GetNumberProperty world_ok;
  ans_SDL_GetWindowSize := ans_SDL_GetWindowSize world_ok;
  ans_SDL_GetWindowSizeInPixels := ans_SDL_GetWindowSizeInPixels world_ok
|}.

(** The state [SDL_AppInit] builds in [world_ok]. *)
Definition tiger_app : AppContext := {|
  window := 0x1000;
  renderer := 0x2000;
  messageTex := 0x5000;
  imageTex := 0x6000;
  messageDest := {| rect_x := float_of_Z 0; rect_y := float_of_Z 0;
                    rect_w := float_of_Z 187; rect_h := float_of_Z 34 |};
  iteration := 0;
  app_quit := SDL_APP_CONTINUE
|}.

(** A painter's view of [tiger_app]'s textures on an integer pixel grid:
    the image covers every pixel, the text the 187 x 34 block at the
    origin. *)
Definition tiger_sample (tex : ptr) (dst : option SDL_FRect) (p : Z * Z)
  : option SDL_Color :=
  if tex =? 0x6000 then Some {| c_r := 0; c_g := 0; c_b := 255; c_a := 255 |}
  else if (tex =? 0x5000) && (0 <=? fst p) && (fst p <? 187)
          && (0 <=? snd p) && (snd p <? 34)
  then Some {| c_r := 200; c_g := 100; c_b := 100; c_a := 255 |}
  else None.

Definition black : SDL_Color := {| c_r := 0; c_g := 0; c_b := 0; c_a := 255 |}.

(** A renderer that has drawn nothing yet. *)
Definition blank_screen : Screen (Z * Z) :=
  {| draw_color := black; backbuffer := fun _ => black; presented := fun _ => black |}.

(** One call per millisecond tick from 0 to 3200. *)
Definition ticks_3200 : list Z := Zseq 0 (Z.to_nat 3201).

Definition mouse_motion : SDL_Event := {| type := 0x400; key_key := 0 |}.
Definition key_a_down : SDL_Event := {| type := 0x300; key_key := 0x61 |}.
Definition escape_up : SDL_Event := {| type := 0x301; key_key := 0x1B |}.
Definition escape_down : SDL_Event := {| type := 0x300; key_key := 0x1B |}.
Definition window_close : SDL_Event := {| type := 0x100; key_key := 0 |}.

(** ** Callbacks in any order, and the steps of initialisation *)

(** One call the run loop makes between [SDL_AppInit] and [SDL_AppQuit]. *)
Inductive callback : Type :=
| on_event (e : SDL_Event)
| on_frame (now : Z).

(** The six steps [SDL_AppInit] tests, in the order it takes them. *)
Inductive init_step : Type :=
| step_SDL_Init
| step_TTF_Init
| step_window
| step_renderer
| step_basePath
| step_font.

Definition step_rank (st : init_step) : nat :=
  match st with
  | step_SDL_Init => 0
  | step_TTF_Init => 1
  | step_window => 2
  | step_renderer => 3
  | step_basePath => 4
  | step_font => 5
  end.

(** The library call by which a step is attempted. *)
Definition attempts (st : init_step) (c : Ext.call) : bool :=
  match st, c with
  | step_SDL_Init, Ext.SDL_Init _ => true
  | step_TTF_Init, Ext.TTF_Init => true
  | step_window, Ext.SDL_CreateWindow _ _ _ _ => true
  | step_renderer, Ext.SDL_CreateRenderer _ _ => true
  | step_basePath, Ext.SDL_GetBasePath => true
  | step_font, Ext.TTF_OpenFont _ _ => true
  | _, _ => false
  end.

(** The three failure branches that open a message box (main.cpp:40, 55, 63). *)
Definition with_message_box (st : init_step) : bool :=
  match st with
  | step_SDL_Init | step_window | step_renderer => true
  | _ => false
  end.

Definition shows_message_box (c : Ext.call) : bool :=
  match c with Ext.SDL_ShowSimpleMessageBox _ _ _ _ => true | _ => false end.
Definition logs_error (c : Ext.call) : bool :=
  match c with Ext.SDL_LogError _ _ => true | _ => false end.
Definition closes_font (p : ptr) (c : Ext.call) : bool :=
  match c with Ext.TTF_CloseFont q => q =? p | _ => false end.
Definition destroys_surface (c : Ext.call) : bool :=
  match c with Ext.SDL_DestroySurface _ => true | _ => false end.
(** Calls that give up a window, a renderer or a texture, or shut a
    library down. *)
Definition tears_down (c : Ext.call) : bool :=
  match c with
  | Ext.SDL_DestroyRenderer _ | Ext.SDL_DestroyWindow _ | Ext.SDL_DestroyTexture _
  | Ext.TTF_Quit | Ext.SDL_Quit => true
  | _ => false
  end.
(** The only calls a failing run of [SDL_AppInit] has reason to make: the
    attempt of a tested step, the message box, and the two calls of
    [SDL_Fail]. *)
Definition failure_path_call (c : Ext.call) : bool :=
  match c with
  | Ext.SDL_Init _ | Ext.TTF_Init | Ext.SDL_CreateWindow _ _ _ _
  | Ext.SDL_CreateRenderer _ _ | Ext.SDL_GetBasePath | Ext.TTF_OpenFont _ _
  | Ext.SDL_ShowSimpleMessageBox _ _ _ _ | Ext.SDL_GetError
  | Ext.SDL_LogError _ _ => true
  | _ => false
  end.
Definition gets_error (c : Ext.call) : bool :=
  match c with Ext.SDL_GetError => true | _ => false end.
Definition highdpi_notice (c : Ext.call) : bool :=
  match c with
  | Ext.SDL_Log fmt _ => String.eqb fmt "This is a highdpi environment."
  | _ => false
  end.

(** ** What the library gives up at a call

    SDL3 documents [SDL_DestroyRenderer] as destroying the rendering
    context and freeing every texture associated with it.  A texture is
    associated with the renderer it was uploaded to, so the association is
    read off the upload calls of a trace and what the world answered them;
    an upload that answered null created nothing. *)
Inductive release : Type :=
| rel_renderer (p : ptr)
| rel_texture (p : ptr)
| rel_window (p : ptr)
| rel_ttf
| rel_sdl.

Definition release_eqb (x y : release) : bool :=
  match x, y with
  | rel_renderer p, rel_renderer q => p =? q
  | rel_texture p, rel_texture q => p =? q
  | rel_window p, rel_window q => p =? q
  | rel_ttf, rel_ttf => true
  | rel_sdl, rel_sdl => true
  | _, _ => false
  end.

(** The uploads of a trace as (texture answered, renderer), the first
    upload of the trace having rank [rank]. *)
Fixpoint uploads (W : World) (rank : nat) (tr : Trace) : list (ptr * ptr) :=
  match tr with
  | [] => []
  | Ext.SDL_CreateTextureFromSurface ren surface :: tr' =>
      (ans_SDL_CreateTextureFromSurface W rank ren surface, ren)
      :: uploads W (S rank) tr'
  | _ :: tr' => uploads W rank tr'
  end.

(** The textures a trace has created on renderer [ren]. *)
Definition associated (W : World) (tr : Trace) (ren : ptr) : list ptr :=
  map fst
    (filter (fun tx => (snd tx =? ren) && negb (is_null (fst tx)))
       (uploads W 0%nat tr)).

(** What one call releases, given the textures associated with each
    renderer. *)
Definition released_by (assoc : ptr -> list ptr) (c : Ext.call) : list release :=
  match c with
  | Ext.SDL_DestroyRenderer ren => rel_renderer ren :: map rel_texture (assoc ren)
  | Ext.SDL_DestroyTexture tex => [rel_texture tex]
  | Ext.SDL_DestroyWindow win => [rel_window win]
  | Ext.TTF_Quit => [rel_ttf]
  | Ext.SDL_Quit => [rel_sdl]
  | _ => []
  end.

Definition releases (assoc : ptr -> list ptr) (tr : Trace) : list release :=
  flat_map (released_by assoc) tr.

(** How many times [x] is released in [l]. *)
Definition times (x : release) (l : list release) : nat :=
  List.length (filter (release_eqb x) l).

(** [W] with another answer to [SDL_GetBasePath]. *)
Definition with_basePath (answer : option string) (W : World) : World := {|
  ans_SDL_Init := ans_SDL_Init W;
  ans_TTF_Init := ans_TTF_Init W;
  ans_SDL_CreateWindow := ans_SDL_CreateWindow W;
  ans_SDL_CreateRenderer := ans_SDL_CreateRenderer W;
  ans_SDL_GetBasePath := answer;
  ans_TTF_OpenFont := ans_TTF_OpenFont W;
  ans_TTF_RenderText_Solid := ans_TTF_RenderText_Solid W;
  ans_SDL_CreateTextureFromSurface := ans_SDL_CreateTextureFromSurface W;
  ans_IMG_Load := ans_IMG_Load W;
  ans_SDL_GetTextureProperties := ans_SDL_GetTextureProperties W;
  ans_SDL_GetNumberProperty := ans_SDL_GetNumberProperty W;
  ans_SDL_GetWindowSize := ans_SDL_GetWindowSize W;
  ans_SDL_GetWindowSizeInPixels := ans_SDL_GetWindowSizeInPixels W
|}.

Section Lifecycle.
Context `{Platform}.

Definition callback_run (app : AppContext) (cb : callback) : Outcome AppContext :=
  match cb with
  | on_event e => run (SDL_AppEvent e) app
  | on_frame now => run (SDL_AppIterate now) app
  end.

(** The state after a sequence of callbacks. *)
Fixpoint lifecycle (app : AppContext) (cbs : list callback) : AppContext :=
  match cbs with
  | [] => app
  | cb :: cbs' => lifecycle (store (callback_run app cb)) cbs'
  end.

Definition callback_asks_to_quit (cb : callback) : bool :=
  match cb with
  | on_event e => asks_to_quit e
  | on_frame _ => false
  end.

(** The first of the six tested steps that fails, if one does. *)
Definition failing_step (W : World) : option init_step :=
  if negb (ans_SDL_Init W init_flags) then Some step_SDL_Init
  else if negb (ans_TTF_Init W) then Some step_TTF_Init
  else if is_null (init_window W) then Some step_window
  else if is_null (init_renderer W) then Some step_renderer
  else match init_basePath W with
       | None => Some step_basePath
       | Some _ => if is_null (init_font W) then Some step_font else None
       end.

(** Whether a step is reached when initialisation gets as far as [st]:
    under [ANDROID] no base path is asked for. *)
Definition reached (st st' : init_step) : bool :=
  (step_rank st' <=? step_rank st)%nat
  && negb (ANDROID && match st' with step_basePath => true | _ => false end).

(** The largest rounded second among the calls of a run, [floor] at least. *)
Fixpoint max_second (floor : Z) (ticks : list Z) : Z :=
  match ticks with
  | [] => floor
  | t :: ts => max_second (Z.max floor (seconds_of_ticks t)) ts
  end.

End Lifecycle.

(** The desktop headers on an Android target. *)
Definition sdl3_android : Platform := {|
  SDL_INIT_VIDEO := 0x20;
  SDL_INIT_AUDIO := 0x10;
  SDL_MESSAGEBOX_ERROR := 0x10;
  SDL_LOG_CATEGORY_CUSTOM := 19;
  SDL_WINDOW_RESIZABLE := 0x20;
  SDL_WINDOW_HIGH_PIXEL_DENSITY := 0x2000;
  SDL_PROP_TEXTURE_WIDTH_NUMBER := "SDL.texture.width";
  SDL_PROP_TEXTURE_HEIGHT_NUMBER := "SDL.texture.height";
  SDL_EVENT_QUIT := 0x100;
  SDL_EVENT_KEY_DOWN := 0x300;
  SDLK_ESCAPE := 0x1B;
  SDL_ALPHA_OPAQUE := 255;
  ANDROID := true;
  int_conversion_invalid := 2147483647
|}.

(** [world_ok] with no renderer to be had: the window is created, the
    renderer is not. *)
Definition world_no_renderer : World := {|
  ans_SDL_Init := ans_SDL_Init world_ok;
  ans_TTF_Init := ans_TTF_Init world_ok;
  ans_SDL_CreateWindow := ans_SDL_CreateWindow world_ok;
  ans_SDL_CreateRenderer := fun _ _ => NULL;
  ans_SDL_GetBasePath := ans_SDL_GetBasePath world_ok;
  ans_TTF_OpenFont := ans_TTF_OpenFont world_ok;
  ans_TTF_RenderText_Solid := ans_TTF_RenderText_Solid world_ok;
  ans_SDL_CreateTextureFromSurface := ans_SDL_CreateTextureFromSurface world_ok;
  ans_IMG_Load := ans_IMG_Load world_ok;
  ans_SDL_GetTextureProperties := ans_SDL_GetTextureProperties world_ok;
  ans_SDL_GetNumberProperty := ans_SDL_GetNumberProperty world_ok;
  ans_SDL_GetWindowSize := ans_SDL_GetWindowSize world_ok;
  ans_SDL_GetWindowSizeInPixels := ans_SDL_GetWindowSizeInPixels world_ok
|}.

(** A session of [tiger_app]: two frames, a key, Escape, a frame. *)
Definition tiger_session : list callback :=
  [on_frame 16; on_frame 700; on_event key_a_down; on_event escape_down;
   on_frame 716].

(** * Verification *)

(** ** Machine arithmetic *)

Lemma wrap_int_small (z : Z) : in_int z -> wrap_int z = z.
Proof.
  unfold in_int, wrap_int, INT_MIN, INT_MAX. intros Hz.
  rewrite Z.mod_small; lia.
Qed.

Lemma wrap_int_in_int (z : Z) : in_int (wrap_int z).
Proof.
  unfold in_int, wrap_int, INT_MIN, INT_MAX.
  pose proof (Z.mod_pos_bound (z - -2147483648) (2 ^ 32) ltac:(lia)). lia.
Qed.

Lemma static_cast_int_in_int `{Platform} (x : float) : in_int (static_cast_int x).
Proof.
  unfold static_cast_int.
  destruct x as [s | s | | s m e]; try apply wrap_int_in_int.
  - unfold in_int, INT_MIN, INT_MAX. lia.
  - cbv zeta.
    destruct ((INT_MIN <=? cond_Zopp s (trunc_magnitude m e))
              && (cond_Zopp s (trunc_magnitude m e) <=? INT_MAX)) eqn:E.
    + apply andb_true_iff in E. destruct E as [E1 E2].
      unfold in_int. split; [apply Z.leb_le, E1 | apply Z.leb_le, E2].
    + apply wrap_int_in_int.
Qed.

Lemma seconds_of_ticks_in_int `{Platform} (t : Z) : in_int (seconds_of_ticks t).
Proof. unfold seconds_of_ticks. apply static_cast_int_in_int. Qed.

(** ** Exact conversion of small integers to [float] *)

Lemma digits2_pos_lower (p : positive) :
  2 ^ (Zpos (digits2_pos p) - 1) <= Zpos p.
Proof.
  induction p as [p IH | p IH | ]; cbn [digits2_pos].
  - rewrite Pos2Z.inj_succ. replace (Z.succ (Zpos (digits2_pos p)) - 1)
      with (Z.succ (Zpos (digits2_pos p) - 1)) by lia.
    rewrite Z.pow_succ_r by lia. lia.
  - rewrite Pos2Z.inj_succ. replace (Z.succ (Zpos (digits2_pos p)) - 1)
      with (Z.succ (Zpos (digits2_pos p) - 1)) by lia.
    rewrite Z.pow_succ_r by lia. lia.
  - simpl. lia.
Qed.

Lemma digits2_pos_small (p : positive) :
  Zpos p < 2 ^ 24 -> Zpos (digits2_pos p) <= 24.
Proof.
  intros Hp. pose proof (digits2_pos_lower p) as Hd.
  destruct (Z_le_gt_dec (Zpos (digits2_pos p)) 24) as [|Hgt]; [assumption|].
  exfalso.
  assert (2 ^ 24 <= 2 ^ (Zpos (digits2_pos p) - 1))
    by (apply Z.pow_le_mono_r; lia).
  lia.
Qed.

Lemma iter_xO_digits (p k : positive) :
  digits2_pos (Pos.iter xO p k) = (digits2_pos p + k)%positive.
Proof.
  induction k as [|k IH] using Pos.peano_ind.
  - simpl. lia.
  - rewrite Pos.iter_succ. cbn [digits2_pos]. rewrite IH. lia.
Qed.

Lemma iter_xO_value (p k : positive) :
  Zpos (Pos.iter xO p k) = Zpos p * 2 ^ Zpos k.
Proof.
  induction k as [|k IH] using Pos.peano_ind.
  - simpl. lia.
  - rewrite Pos.iter_succ, Pos2Z.inj_xO, IH, Pos2Z.inj_succ, Z.pow_succ_r by lia.
    lia.
Qed.

(** A mantissa that already has 24 digits is kept as it is. *)
Lemma binary_round_aux_exact (s : bool) (m : positive) (e : Z) :
  digits2_pos m = 24%positive -> -149 <= e <= 104 ->
  binary_round_aux 24 128 s (Zpos m) e loc_Exact = S754_finite s m e.
Proof.
  intros Hd He.
  assert (Hshr : shr_fexp 24 128 (Zpos m) e loc_Exact
                 = ({| shr_m := Zpos m; shr_r := false; shr_s := false |}, e)).
  { unfold shr_fexp, Zdigits2. rewrite Hd.
    unfold fexp, emin.
    replace (Z.max (24 + e - 24) (3 - 128 - 24) - e) with 0 by lia.
    reflexivity. }
  unfold binary_round_aux. rewrite Hshr. cbn [shr_m loc_of_shr_record round_nearest_even].
  rewrite Hshr. cbn [shr_m].
  replace (e <=? 128 - 24) with true by (symmetry; apply Z.leb_le; lia).
  reflexivity.
Qed.

Lemma float_of_Zpos_exact (s : bool) (p : positive) :
  Zpos p < 2 ^ 24 ->
  Z_of_float (binary_round 24 128 s p 0) = Some (cond_Zopp s (Zpos p)).
Proof.
  intros Hp. pose proof (digits2_pos_small p Hp) as Hd.
  unfold binary_round.
  replace (fexp 24 128 (Zpos (digits2_pos p) + 0)) with (Zpos (digits2_pos p) - 24)
    by (unfold fexp, emin; lia).
  unfold shl_align.
  destruct (Zpos (digits2_pos p) - 24 - 0) as [|k|k] eqn:Ek; try lia.
  - rewrite binary_round_aux_exact; [| lia | lia].
    cbn [Z_of_float]. rewrite Z.pow_0_r, Z.mul_1_r. reflexivity.
  - rewrite binary_round_aux_exact.
    + replace (Zpos (digits2_pos p) - 24) with (Zneg k) by lia.
      cbn [Z_of_float]. rewrite iter_xO_value.
      rewrite Z.mod_mul by (apply Z.pow_nonzero; lia).
      rewrite Z.eqb_refl, Z.div_mul by (apply Z.pow_nonzero; lia).
      reflexivity.
    + rewrite iter_xO_digits. lia.
    + lia.
Qed.

(** Every integer of magnitude below 2^24 is a [float]. *)
Lemma float_of_Z_exact (n : Z) :
  - 2 ^ 24 < n < 2 ^ 24 -> Z_of_float (float_of_Z n) = Some n.
Proof.
  intros Hn. unfold float_of_Z, binary_normalize.
  destruct n as [|p|p].
  - reflexivity.
  - apply (float_of_Zpos_exact false). lia.
  - apply (float_of_Zpos_exact true). lia.
Qed.

(** ** What one call of each callback does *)

Ltac run_callback :=
  unfold run, run_void, bind, when, call, perform, get, put, ret, Return;
  cbn [app fst snd].

(** Membership of a call in a computed trace. *)
Ltac in_trace := cbn; repeat (first [left; reflexivity | right]).

(** What a call found in a computed trace can be. *)
Ltac in_trace_inv H :=
  repeat (destruct H as [H | H];
          [ first [ discriminate H
                  | injection H as <- <-; split; reflexivity
                  | injection H as <-; reflexivity ] | ]);
  contradiction H.

Section CallbackFacts.
Context `{Platform}.

Lemma SDL_AppEvent_run (e : SDL_Event) (app : AppContext) :
  run (SDL_AppEvent e) app =
  {| result := SDL_APP_CONTINUE;
     store := if asks_to_quit e then set_app_quit SDL_APP_SUCCESS app else app;
     calls := [] |}.
Proof.
  unfold SDL_AppEvent, asks_to_quit. run_callback.
  destruct (type e =? SDL_EVENT_QUIT), (type e =? SDL_EVENT_KEY_DOWN),
    (key_key e =? SDLK_ESCAPE); reflexivity.
Qed.

Lemma asks_to_quit_iff (e : SDL_Event) :
  asks_to_quit e = true <-> is_quit_signal e \/ is_escape_press e.
Proof.
  unfold asks_to_quit, is_quit_signal, is_escape_press.
  rewrite orb_true_iff, andb_true_iff, !Z.eqb_eq. tauto.
Qed.

Lemma asks_to_quit_false (e : SDL_Event) :
  ~ is_quit_signal e -> ~ is_escape_press e -> asks_to_quit e = false.
Proof.
  intros Hq He. destruct (asks_to_quit e) eqn:E; [|reflexivity].
  apply asks_to_quit_iff in E. tauto.
Qed.

Lemma SDL_AppIterate_run (now : Z) (app : AppContext) :
  run (SDL_AppIterate now) app =
  if iteration app <? seconds_of_ticks now
  then {| result := app_quit app;
          store := set_iteration (wrap_int (iteration app + 1)) app;
          calls := Ext.SDL_GetTicks :: Ext.cout_time (seconds_of_ticks now)
                   :: drawing_calls app |}
  else {| result := app_quit app;
          store := app;
          calls := Ext.SDL_GetTicks :: drawing_calls app |}.
Proof.
  unfold SDL_AppIterate, seconds_of_ticks, drawing_calls. run_callback.
  destruct (iteration app <? _); reflexivity.
Qed.

Lemma SDL_AppQuit_run_some (q : SDL_AppResult) (app : AppContext) :
  run_void (SDL_AppQuit q) (Some app) =
  (None,
   [Ext.SDL_DestroyRenderer (renderer app); Ext.SDL_DestroyWindow (window app);
    Ext.delete_AppContext app; Ext.TTF_Quit;
    Ext.SDL_Log "Application quit successfully!" []; Ext.SDL_Quit]).
Proof. reflexivity. Qed.

Lemma SDL_AppQuit_run_none (q : SDL_AppResult) :
  run_void (SDL_AppQuit q) None =
  (None,
   [Ext.TTF_Quit; Ext.SDL_Log "Application quit successfully!" []; Ext.SDL_Quit]).
Proof. reflexivity. Qed.

End CallbackFacts.

(** ** Initialisation *)

Section InitFacts.
Context `{Platform}.

(** [SDL_AppInit] fails exactly when one of the six tested steps fails;
    otherwise it stores [init_app], whatever the four untested steps
    answered. *)
Lemma SDL_AppInit_run (W : World) :
  result (run (SDL_AppInit W) None)
  = (if checked_steps_succeed W then SDL_APP_CONTINUE else SDL_APP_FAILURE)
  /\ store (run (SDL_AppInit W) None)
     = (if checked_steps_succeed W then Some (init_app W) else None).
Proof.
  unfold checked_steps_succeed, init_app, queried_width, queried_height,
    init_messageTex, init_imageTex, init_surfaceMessage, init_svg_surface,
    init_font, init_renderer, init_basePath, init_window, init_flags.
  unfold SDL_AppInit, SDL_Fail. run_callback.
  destruct (ans_SDL_Init W _); [|split; reflexivity].
  destruct (ans_TTF_Init W); [|split; reflexivity].
  destruct (is_null (ans_SDL_CreateWindow W _ _ _ _)); [split; reflexivity|].
  destruct (is_null (ans_SDL_CreateRenderer W _ _)); [split; reflexivity|].
  destruct ANDROID.
  - destruct (is_null (ans_TTF_OpenFont W _ _)); [split; reflexivity|].
    destruct (ans_SDL_GetWindowSize W _) as [width height].
    destruct (ans_SDL_GetWindowSizeInPixels W _) as [bbwidth bbheight].
    destruct (negb (width =? bbwidth)); split; reflexivity.
  - destruct (ans_SDL_GetBasePath W) as [p|]; [|split; reflexivity].
    destruct (is_null (ans_TTF_OpenFont W _ _)); [split; reflexivity|].
    destruct (ans_SDL_GetWindowSize W _) as [width height].
    destruct (ans_SDL_GetWindowSizeInPixels W _) as [bbwidth bbheight].
    destruct (negb (width =? bbwidth)); split; reflexivity.
Qed.

End InitFacts.

(** ** Events *)

Section EventFacts.
Context `{Platform}.

Lemma events_app_quit_success (es : list SDL_Event) (app : AppContext) :
  app_quit app = SDL_APP_SUCCESS ->
  app_quit (fst (events app es)) = SDL_APP_SUCCESS.
Proof.
  revert app. induction es as [|e es IH]; intros app Happ; [exact Happ|].
  cbn [events]. rewrite SDL_AppEvent_run. cbn [store result].
  destruct (events _ es) as [app' rs] eqn:E. cbn [fst].
  change app' with (fst (app', rs)). rewrite <- E. apply IH.
  destruct (asks_to_quit e); [reflexivity | exact Happ].
Qed.

(** C4. Events that are neither a quit signal nor an Escape key-down leave
    the whole application state as it was, one by one and in any sequence:
    the state after the sequence is the state before it (so a pending
    result of continue is still continue), every call returned continue,
    and no call reached the outside world. *)
Theorem SDL_AppEvent_ignores_other_events :
  forall (app : AppContext) (es : list SDL_Event),
    Forall (fun e => ~ is_quit_signal e /\ ~ is_escape_press e) es ->
    events app es = (app, repeat SDL_APP_CONTINUE (List.length es))
    /\ (app_quit app = SDL_APP_CONTINUE ->
        app_quit (fst (events app es)) = SDL_APP_CONTINUE)
    /\ Forall (fun e => run (SDL_AppEvent e) app
                        = {| result := SDL_APP_CONTINUE; store := app; calls := [] |}) es.
Proof.
  intros app es Hes.
  assert (Hrun : events app es = (app, repeat SDL_APP_CONTINUE (List.length es))).
  { induction Hes as [|e es [Hq He] _ IH]; [reflexivity|].
    cbn [events List.length repeat]. rewrite SDL_AppEvent_run.
    rewrite (asks_to_quit_false e Hq He). cbn [store result].
    rewrite IH. reflexivity. }
  split; [exact Hrun|]. split.
  - intros Hc. rewrite Hrun. exact Hc.
  - apply Forall_forall. intros e Hin.
    rewrite Forall_forall in Hes. destruct (Hes e Hin) as [Hq He].
    rewrite SDL_AppEvent_run, (asks_to_quit_false e Hq He). reflexivity.
Qed.

(** C5. A quit signal or an Escape key-down sets the pending result to
    success; handling the same event again changes nothing more; and no
    later sequence of events, of any kind, takes the success away. *)
Theorem SDL_AppEvent_quit_is_sticky :
  forall (app : AppContext) (e : SDL_Event) (es : list SDL_Event),
    is_quit_signal e \/ is_escape_press e ->
    let app1 := store (run (SDL_AppEvent e) app) in
    app_quit app1 = SDL_APP_SUCCESS
    /\ store (run (SDL_AppEvent e) app1) = app1
    /\ app_quit (fst (events app1 es)) = SDL_APP_SUCCESS.
Proof.
  intros app e es He. cbv zeta.
  apply asks_to_quit_iff in He.
  rewrite !SDL_AppEvent_run, He. cbn [store].
  split; [reflexivity|]. split; [reflexivity|].
  apply events_app_quit_success. reflexivity.
Qed.

(** C9. [SDL_AppEvent] itself returns continue for every event, a quit
    signal and an Escape key-down included, and makes no call: the pending
    result it leaves in the state is its only output.  The next
    [SDL_AppIterate] returns that stored value, whatever it is: success
    after a quit signal or an Escape key-down, and after any other event
    what the state held before the event. *)
Theorem SDL_AppEvent_returns_continue :
  (forall (app : AppContext) (e : SDL_Event),
      result (run (SDL_AppEvent e) app) = SDL_APP_CONTINUE
      /\ calls (run (SDL_AppEvent e) app) = [])
  /\ (forall (app : AppContext) (e : SDL_Event) (now : Z),
         result (run (SDL_AppIterate now) (store (run (SDL_AppEvent e) app)))
         = app_quit (store (run (SDL_AppEvent e) app)))
  /\ (forall (app : AppContext) (e : SDL_Event) (now : Z),
         is_quit_signal e \/ is_escape_press e ->
         app_quit (store (run (SDL_AppEvent e) app)) = SDL_APP_SUCCESS
         /\ result (run (SDL_AppIterate now) (store (run (SDL_AppEvent e) app)))
            = SDL_APP_SUCCESS)
  /\ (forall (app : AppContext) (e : SDL_Event) (now : Z),
         ~ is_quit_signal e -> ~ is_escape_press e ->
         store (run (SDL_AppEvent e) app) = app
         /\ result (run (SDL_AppIterate now) (store (run (SDL_AppEvent e) app)))
            = app_quit app).
Proof.
  assert (Hret : forall app now,
             result (run (SDL_AppIterate now) app) = app_quit app).
  { intros app now. rewrite SDL_AppIterate_run. destruct (_ <? _); reflexivity. }
  split; [|split; [|split]].
  - intros app e. rewrite SDL_AppEvent_run. split; reflexivity.
  - intros app e now. apply Hret.
  - intros app e now He. apply asks_to_quit_iff in He.
    rewrite Hret, SDL_AppEvent_run, He. split; reflexivity.
  - intros app e now Hq He.
    rewrite Hret, SDL_AppEvent_run, (asks_to_quit_false e Hq He).
    split; reflexivity.
Qed.

End EventFacts.

(** ** Frames *)

Section FrameFacts.
Context `{Platform}.

Lemma SDL_AppIterate_iteration (now : Z) (app : AppContext) :
  in_int (iteration app) ->
  iteration (store (run (SDL_AppIterate now) app))
  = if iteration app <? seconds_of_ticks now
    then iteration app + 1 else iteration app.
Proof.
  intros Hi. rewrite SDL_AppIterate_run.
  destruct (iteration app <? seconds_of_ticks now) eqn:E; [|reflexivity].
  cbn [store set_iteration iteration].
  apply Z.ltb_lt in E. pose proof (seconds_of_ticks_in_int now) as Hs.
  apply wrap_int_small. unfold in_int in *. lia.
Qed.

Lemma after_frames_in_int (ticks : list Z) (app : AppContext) :
  in_int (iteration app) ->
  in_int (iteration (after_frames app ticks))
  /\ iteration app <= iteration (after_frames app ticks).
Proof.
  revert app. induction ticks as [|t ts IH]; intros app Hi.
  - cbn [after_frames]. split; [exact Hi | lia].
  - cbn [after_frames].
    pose proof (SDL_AppIterate_iteration t app Hi) as Hstep.
    pose proof (seconds_of_ticks_in_int t) as Hs.
    assert (Hi' : in_int (iteration (store (run (SDL_AppIterate t) app)))).
    { rewrite Hstep. destruct (_ <? _) eqn:E; [|exact Hi].
      apply Z.ltb_lt in E. unfold in_int in *. lia. }
    destruct (IH _ Hi') as [IH1 IH2]. split; [exact IH1|].
    rewrite Hstep in IH2. destruct (_ <? _); lia.
Qed.

(** C8. [SDL_AppIterate] returns the pending result the state holds, at
    every call; on the state [SDL_AppInit] has just stored that is
    continue. *)
Theorem SDL_AppIterate_returns_app_quit :
  (forall (app : AppContext) (now : Z),
      result (run (SDL_AppIterate now) app) = app_quit app)
  /\ (forall (W : World) (app : AppContext) (now : Z),
         store (run (SDL_AppInit W) None) = Some app ->
         result (run (SDL_AppIterate now) app) = SDL_APP_CONTINUE).
Proof.
  assert (Hret : forall app now,
             result (run (SDL_AppIterate now) app) = app_quit app).
  { intros app now. rewrite SDL_AppIterate_run. destruct (_ <? _); reflexivity. }
  split; [exact Hret|].
  intros W app now Hinit. rewrite Hret.
  destruct (SDL_AppInit_run W) as [_ Hst]. rewrite Hst in Hinit.
  destruct (checked_steps_succeed W); [|discriminate].
  injection Hinit as <-. reflexivity.
Qed.

(** C10. One call of [SDL_AppIterate] changes no field of the state but
    the counter, and the counter stays or goes up by one; over any run of
    calls it never goes down. *)
Theorem SDL_AppIterate_frame :
  forall (app : AppContext) (now : Z),
    in_int (iteration app) ->
    let app' := store (run (SDL_AppIterate now) app) in
    window app' = window app /\ renderer app' = renderer app
    /\ messageTex app' = messageTex app /\ imageTex app' = imageTex app
    /\ messageDest app' = messageDest app /\ app_quit app' = app_quit app
    /\ (iteration app' = iteration app \/ iteration app' = iteration app + 1)
    /\ in_int (iteration app')
    /\ forall ticks : list Z,
         iteration app <= iteration (after_frames app ticks).
Proof.
  intros app now Hi. cbv zeta.
  pose proof (SDL_AppIterate_iteration now app Hi) as Hstep.
  pose proof (seconds_of_ticks_in_int now) as Hs.
  assert (Hfields :
    window (store (run (SDL_AppIterate now) app)) = window app
    /\ renderer (store (run (SDL_AppIterate now) app)) = renderer app
    /\ messageTex (store (run (SDL_AppIterate now) app)) = messageTex app
    /\ imageTex (store (run (SDL_AppIterate now) app)) = imageTex app
    /\ messageDest (store (run (SDL_AppIterate now) app)) = messageDest app
    /\ app_quit (store (run (SDL_AppIterate now) app)) = app_quit app).
  { rewrite SDL_AppIterate_run. destruct (_ <? _); repeat split; reflexivity. }
  destruct Hfields as (Hw & Hr & Hm & Him & Hd & Hq).
  repeat split; try assumption.
  - rewrite Hstep. destruct (_ <? _); [right | left]; reflexivity.
  - rewrite Hstep. destruct (_ <? _) eqn:E; unfold in_int in *; [|lia].
    apply Z.ltb_lt in E. lia.
  - rewrite Hstep. destruct (_ <? _) eqn:E; unfold in_int in *; [|lia].
    apply Z.ltb_lt in E. lia.
  - intros ticks. apply after_frames_in_int. exact Hi.
Qed.

End FrameFacts.

(** ** The once-a-second line *)

Section TimeLineFacts.
Context `{Platform}.

Lemma time_log_cons (t : Z) (ts : list Z) (app : AppContext) :
  time_log app (t :: ts)
  = ((if iteration app <? seconds_of_ticks t
      then [(t, seconds_of_ticks t)] else [])
     ++ time_log (store (run (SDL_AppIterate t) app)) ts)%list.
Proof.
  unfold time_log. cbn [frames flat_map fst snd].
  rewrite SDL_AppIterate_run. destruct (_ <? _); reflexivity.
Qed.

Lemma Zseq_snoc_head (from : Z) (len : nat) :
  from :: Zseq (from + 1) len = Zseq from (S len).
Proof. reflexivity. Qed.

Lemma Zseq_In (len : nat) (from k : Z) :
  In k (Zseq from len) -> from <= k.
Proof.
  revert from. induction len as [|n IH]; intros from Hin; [contradiction|].
  cbn [Zseq In] in Hin. destruct Hin as [<- | Hin]; [lia|].
  apply IH in Hin. lia.
Qed.

Lemma Zseq_In_intro (len : nat) (from k : Z) :
  from <= k < from + Z.of_nat len -> In k (Zseq from len).
Proof.
  revert from. induction len as [|n IH]; intros from Hk; [lia|].
  cbn [Zseq In]. destruct (Z.eq_dec from k) as [-> | Hne]; [left; reflexivity|].
  right. apply IH. lia.
Qed.

Lemma Zseq_NoDup (len : nat) (from : Z) : NoDup (Zseq from len).
Proof.
  revert from. induction len as [|n IH]; intros from; cbn [Zseq].
  - constructor.
  - constructor; [|apply IH]. intros Hin. apply Zseq_In in Hin. lia.
Qed.

(** When every call finds the rounded second at the counter or one above
    it, the counter follows the rounded second and the lines count up
    without a gap or a repeat. *)
Lemma time_log_paced (ticks : list Z) (app : AppContext) :
  paced (iteration app) ticks ->
  iteration app <= iteration (after_frames app ticks)
  /\ map snd (time_log app ticks)
     = Zseq (iteration app + 1)
         (Z.to_nat (iteration (after_frames app ticks) - iteration app))
  /\ (forall t k, In (t, k) (time_log app ticks) ->
                  In t ticks /\ seconds_of_ticks t = k)
  /\ (ticks <> [] ->
      iteration (after_frames app ticks) = seconds_of_ticks (last ticks 0)).
Proof.
  revert app. induction ticks as [|t ts IH]; intros app Hp.
  - cbn [after_frames]. rewrite Z.sub_diag.
    repeat split; try reflexivity; try lia; try contradiction.
  - destruct Hp as [Hs Hp]. rewrite time_log_cons. cbn [after_frames].
    pose proof (seconds_of_ticks_in_int t) as Hint.
    assert (Hnext : iteration (store (run (SDL_AppIterate t) app))
                    = seconds_of_ticks t).
    { rewrite SDL_AppIterate_run. destruct Hs as [Hs | Hs].
      - rewrite Hs, Z.ltb_irrefl. reflexivity.
      - replace (iteration app <? seconds_of_ticks t) with true
          by (symmetry; apply Z.ltb_lt; lia).
        cbn [store set_iteration iteration]. rewrite <- Hs.
        apply wrap_int_small. exact Hint. }
    rewrite <- Hnext in Hp. destruct (IH _ Hp) as (IH1 & IH2 & IH3 & IH4).
    rewrite Hnext in IH1, IH2.
    assert (Hlast : iteration (after_frames (store (run (SDL_AppIterate t) app)) ts)
                    = seconds_of_ticks (last (t :: ts) 0)).
    { destruct ts as [|t' ts']; [exact Hnext|].
      rewrite IH4 by discriminate. reflexivity. }
    split; [lia|]. split; [|split].
    + rewrite map_app, IH2. destruct Hs as [Hs | Hs].
      * rewrite Hs, Z.ltb_irrefl. reflexivity.
      * replace (iteration app <? seconds_of_ticks t) with true
          by (symmetry; apply Z.ltb_lt; lia).
        cbn [map snd List.app]. rewrite Hs, Zseq_snoc_head. f_equal. lia.
    + intros t0 k Hin. apply in_app_or in Hin. destruct Hin as [Hin | Hin].
      * destruct (_ <? _); [|contradiction].
        destruct Hin as [Heq | []]. injection Heq as <- <-.
        split; [left; reflexivity | reflexivity].
      * destruct (IH3 _ _ Hin) as [Hin' Hk]. split; [right; exact Hin' | exact Hk].
    + intros _. exact Hlast.
Qed.

(** During the first 16 seconds, the rounded second is the elapsed
    milliseconds rounded to the nearest thousand, halves up. *)
Lemma seconds_of_ticks_early (t : Z) :
  0 <= t < 16384 -> seconds_of_ticks t = (t + 500) / 1000.
Proof.
  intros Ht.
  assert (Hall : forallb (fun t => seconds_of_ticks t =? (t + 500) / 1000)
                   (Zseq 0 (Z.to_nat 16384)) = true) by (vm_compute; reflexivity).
  rewrite forallb_forall in Hall. apply Z.eqb_eq, Hall.
  apply Zseq_In_intro. rewrite Z2Nat.id; lia.
Qed.

(** Calls at most a second apart, within the first 16 seconds, are
    [paced]. *)
Lemma spaced_paced (ticks : list Z) (prev : Z) :
  0 <= prev -> Forall (fun t => t < 16384) ticks ->
  spaced 1000 prev ticks -> paced ((prev + 500) / 1000) ticks.
Proof.
  revert prev. induction ticks as [|t ts IH]; intros prev Hprev Hall Hsp;
    [exact I|].
  destruct Hsp as [Ht Hsp]. inversion Hall as [|? ? Hlt Hall']; subst.
  cbn [paced]. rewrite seconds_of_ticks_early by lia. split.
  - Z.div_mod_to_equations. lia.
  - apply IH; [lia | exact Hall' | exact Hsp].
Qed.

Lemma Zseq_In_upper (len : nat) (from k : Z) :
  In k (Zseq from len) -> k < from + Z.of_nat len.
Proof.
  revert from. induction len as [|n IH]; intros from Hin; [contradiction|].
  cbn [Zseq In] in Hin. destruct Hin as [<- | Hin]; [lia|].
  apply IH in Hin. lia.
Qed.

(** Consecutive ticks are one millisecond apart. *)
Lemma spaced_Zseq (len : nat) (from : Z) : spaced 1000 from (Zseq from len).
Proof.
  destruct len as [|n]; [exact I|]. cbn [Zseq spaced]. split; [lia|].
  revert from. induction n as [|n IH]; intros from; [exact I|].
  cbn [Zseq spaced]. split; [lia|]. apply IH.
Qed.

(** The counter is all a run's lines depend on. *)
Lemma time_log_counter (ticks : list Z) (app1 app2 : AppContext) :
  iteration app1 = iteration app2 -> time_log app1 ticks = time_log app2 ticks.
Proof.
  revert app1 app2. induction ticks as [|t ts IH]; intros app1 app2 Hi;
    [reflexivity|].
  rewrite !time_log_cons, Hi. f_equal. apply IH.
  rewrite !SDL_AppIterate_run, Hi. destruct (_ <? _); [|exact Hi].
  reflexivity.
Qed.

Lemma time_log_ticks_3200 :
  time_log tiger_app ticks_3200 = [(500, 1); (1500, 2); (2500, 3)].
Proof. vm_compute. reflexivity. Qed.

End TimeLineFacts.

Section TimeLineClaim.
Context `{Platform}.

(** C3 (amended). Start from counter 0 and let every call find the rounded
    elapsed second (milliseconds / 1000 in single precision, rounded half
    away from zero) at the counter or one above it.  Then the seconds
    printed are 1, 2, ..., n in this order, n being the rounded second of
    the last call: none twice, none skipped; each line is printed by a
    call whose own rounded second is the number printed, so second k is
    announced from k - 0.5 s on.  One call per millisecond from 0 to
    3200 prints exactly three lines, 1, 2 and 3, at ticks 500, 1500 and
    2500. *)
Theorem SDL_AppIterate_time_lines :
  forall (app : AppContext) (ticks : list Z),
    iteration app = 0 ->
    paced 0 ticks ->
    map snd (time_log app ticks)
    = Zseq 1 (Z.to_nat (seconds_of_ticks (last ticks 0)))
    /\ no_second_twice app ticks
    /\ (forall t k, In (t, k) (time_log app ticks) ->
                    In t ticks /\ seconds_of_ticks t = k)
    /\ paced 0 ticks_3200
    /\ time_log app ticks_3200 = [(500, 1); (1500, 2); (2500, 3)].
Proof.
  intros app ticks H0 Hp. rewrite <- H0 in Hp.
  destruct (time_log_paced ticks app Hp) as (_ & Hlog & Hin & Hlast).
  rewrite H0 in Hlog.
  assert (Hvals : map snd (time_log app ticks)
                  = Zseq 1 (Z.to_nat (seconds_of_ticks (last ticks 0)))).
  { rewrite Hlog. destruct ticks as [|t ts].
    - cbn [after_frames last]. rewrite H0. reflexivity.
    - rewrite Hlast by discriminate. rewrite Z.sub_0_r. reflexivity. }
  split; [exact Hvals|]. split; [|split; [|split]].
  - unfold no_second_twice. rewrite Hvals. apply Zseq_NoDup.
  - exact Hin.
  - apply (spaced_paced ticks_3200 0); [lia | |].
    + apply Forall_forall. intros t Ht. apply Zseq_In_upper in Ht.
      rewrite Z2Nat.id in Ht; lia.
    + apply spaced_Zseq.
  - rewrite (time_log_counter ticks_3200 app tiger_app H0).
    apply time_log_ticks_3200.
Qed.

End TimeLineClaim.

(** ** Initialisation: which failures are caught *)

Section InitClaims.
Context `{Platform}.

(** A failure of one of the six tested steps aborts initialisation and
    leaves [*appstate] empty. *)
Lemma SDL_AppInit_checked_step_fails (W : World) :
  checked_steps_succeed W = false ->
  result (run (SDL_AppInit W) None) = SDL_APP_FAILURE
  /\ store (run (SDL_AppInit W) None) = None.
Proof.
  intros Hf. destruct (SDL_AppInit_run W) as [Hr Hs].
  rewrite Hr, Hs, Hf. split; reflexivity.
Qed.

(** A failure of text rasterisation, of image decoding or of either
    texture upload alone does not: the state is stored with whatever
    those steps answered. *)
Lemma SDL_AppInit_unchecked_step_fails (W : World) :
  checked_steps_succeed W = true ->
  unchecked_steps_succeed W = false ->
  result (run (SDL_AppInit W) None) = SDL_APP_CONTINUE
  /\ store (run (SDL_AppInit W) None) = Some (init_app W).
Proof.
  intros Hc _. destruct (SDL_AppInit_run W) as [Hr Hs].
  rewrite Hr, Hs, Hc. split; reflexivity.
Qed.

Lemma SDL_AppInit_stored (W : World) (app : AppContext) :
  store (run (SDL_AppInit W) None) = Some app ->
  checked_steps_succeed W = true /\ app = init_app W.
Proof.
  intros Hst. destruct (SDL_AppInit_run W) as [_ Hs]. rewrite Hs in Hst.
  destruct (checked_steps_succeed W); [|discriminate].
  injection Hst as <-. split; reflexivity.
Qed.

(** On the path that stores a state, the texture's properties are read
    once and its width and height once each. *)
Lemma SDL_AppInit_queries (W : World) :
  checked_steps_succeed W = true ->
  count queries_texture (calls (run (SDL_AppInit W) None)) = 3%nat
  /\ In (Ext.SDL_GetTextureProperties (init_messageTex W))
        (calls (run (SDL_AppInit W) None)).
Proof.
  unfold checked_steps_succeed, init_messageTex, init_surfaceMessage,
    init_font, init_renderer, init_basePath, init_window, init_flags.
  unfold SDL_AppInit, SDL_Fail. run_callback.
  destruct (ans_SDL_Init W _); [|discriminate].
  destruct (ans_TTF_Init W); [|discriminate].
  destruct (is_null (ans_SDL_CreateWindow W _ _ _ _)); [discriminate|].
  destruct (is_null (ans_SDL_CreateRenderer W _ _)); [discriminate|].
  destruct ANDROID.
  - destruct (is_null (ans_TTF_OpenFont W _ _)); [discriminate|]. intros _.
    destruct (ans_SDL_GetWindowSize W _) as [width height].
    destruct (ans_SDL_GetWindowSizeInPixels W _) as [bbwidth bbheight].
    destruct (negb (width =? bbwidth));
      (split; [reflexivity | in_trace]).
  - destruct (ans_SDL_GetBasePath W) as [p|]; [|discriminate].
    destruct (is_null (ans_TTF_OpenFont W _ _)); [discriminate|]. intros _.
    destruct (ans_SDL_GetWindowSize W _) as [width height].
    destruct (ans_SDL_GetWindowSizeInPixels W _) as [bbwidth bbheight].
    destruct (negb (width =? bbwidth));
      (split; [reflexivity | in_trace]).
Qed.

End InitClaims.

(** C1. With [gs_tiger.svg] absent, image decoding fails and the upload of
    the null surface fails after it; [SDL_AppInit] all the same returns
    continue and stores a state whose image texture is null, so
    initialisation is not all-or-nothing in this world. *)
Theorem SDL_AppInit_missing_image :
  is_null (@init_svg_surface sdl3_desktop world_missing_image) = true
  /\ is_null (@init_imageTex sdl3_desktop world_missing_image) = true
  /\ result (run (@SDL_AppInit sdl3_desktop world_missing_image) None)
     = SDL_APP_CONTINUE
  /\ (exists app : AppContext,
         store (run (@SDL_AppInit sdl3_desktop world_missing_image) None) = Some app
         /\ imageTex app = NULL)
  /\ ~ @init_all_or_nothing sdl3_desktop world_missing_image.
Proof.
  split; [reflexivity|]. split; [reflexivity|]. split; [reflexivity|]. split.
  - eexists. split; reflexivity.
  - intros Hall. destruct Hall as [Hr _]; [reflexivity | discriminate Hr].
Qed.

(** ** Teardown *)

(** Call by call: with a state, [SDL_AppQuit] destroys the renderer, then
    the window, each by exactly one call, frees the state, and only then
    shuts down the text subsystem and the library; it makes no
    [SDL_DestroyTexture] call.  Without a state it makes no destroy call
    and the two shutdowns still happen. *)
Lemma SDL_AppQuit_calls :
  forall (q : SDL_AppResult) (app : AppContext),
    run_void (SDL_AppQuit q) (Some app)
    = (None,
       [Ext.SDL_DestroyRenderer (renderer app); Ext.SDL_DestroyWindow (window app);
        Ext.delete_AppContext app; Ext.TTF_Quit;
        Ext.SDL_Log "Application quit successfully!" []; Ext.SDL_Quit])
    /\ count (destroys_renderer (renderer app))
         (snd (run_void (SDL_AppQuit q) (Some app))) = 1%nat
    /\ count (destroys_window (window app))
         (snd (run_void (SDL_AppQuit q) (Some app))) = 1%nat
    /\ (forall tex : ptr,
           count (destroys_texture tex)
             (snd (run_void (SDL_AppQuit q) (Some app))) = 0%nat)
    /\ run_void (SDL_AppQuit q) None
       = (None,
          [Ext.TTF_Quit; Ext.SDL_Log "Application quit successfully!" [];
           Ext.SDL_Quit]).
Proof.
  intros q app. rewrite SDL_AppQuit_run_some, SDL_AppQuit_run_none.
  unfold count. cbn [snd filter destroys_renderer destroys_window destroys_texture].
  rewrite !Z.eqb_refl. repeat split; reflexivity.
Qed.

(** ** Drawing *)

Section DrawingClaim.
Context `{Platform}.

Lemma paint_all_drawing_calls {Pixel : Type}
    (sample : ptr -> option SDL_FRect -> Pixel -> option SDL_Color)
    (s : Screen Pixel) (app : AppContext) (p : Pixel) :
  presented (paint_all sample s (drawing_calls app)) p
  = match sample (messageTex app) (Some (messageDest app)) p with
    | Some c => c
    | None =>
        match sample (imageTex app) None p with
        | Some c => c
        | None => {| c_r := 255; c_g := 255; c_b := 255; c_a := SDL_ALPHA_OPAQUE |}
        end
    end.
Proof. reflexivity. Qed.

(** C7. Every frame issues the same five drawing calls in this order: set
    the draw colour to opaque white, clear, draw the image texture over
    the whole target, draw the text texture at its rectangle, present.
    Painted in that order, a pixel that both textures cover is presented
    with the text texture's colour. *)
Theorem SDL_AppIterate_draw_order :
  forall (app : AppContext) (now : Z),
    filter is_drawing (calls (run (SDL_AppIterate now) app))
    = [Ext.SDL_SetRenderDrawColor (renderer app) 255 255 255 SDL_ALPHA_OPAQUE;
       Ext.SDL_RenderClear (renderer app);
       Ext.SDL_RenderTexture (renderer app) (imageTex app) None None;
       Ext.SDL_RenderTexture (renderer app) (messageTex app) None
         (Some (messageDest app));
       Ext.SDL_RenderPresent (renderer app)]
    /\ forall (Pixel : Type)
              (sample : ptr -> option SDL_FRect -> Pixel -> option SDL_Color)
              (s : Screen Pixel) (p : Pixel) (image_colour text_colour : SDL_Color),
         sample (imageTex app) None p = Some image_colour ->
         sample (messageTex app) (Some (messageDest app)) p = Some text_colour ->
         presented (paint_all sample s (calls (run (SDL_AppIterate now) app))) p
         = text_colour.
Proof.
  intros app now. rewrite SDL_AppIterate_run. split.
  - destruct (_ <? _); reflexivity.
  - intros Pixel sample s p ci ct Hi Ht.
    assert (Hpaint : presented
              (paint_all sample s (calls (run (SDL_AppIterate now) app))) p
            = presented (paint_all sample s (drawing_calls app)) p).
    { rewrite SDL_AppIterate_run. destruct (_ <? _); reflexivity. }
    rewrite SDL_AppIterate_run in Hpaint. rewrite Hpaint.
    rewrite paint_all_drawing_calls, Ht. reflexivity.
Qed.

End DrawingClaim.

(** ** Concrete runs *)

(** C3 (as stated, refuted). Two calls with non-decreasing ticks 5000 and
    5001, the first calls of a run: each prints second 5. *)
Lemma SDL_AppIterate_second_printed_twice :
  Sorted Z.le [5000; 5001]
  /\ @time_log sdl3_desktop tiger_app [5000; 5001] = [(5000, 5); (5001, 5)]
  /\ ~ @no_second_twice sdl3_desktop tiger_app [5000; 5001].
Proof.
  split; [repeat constructor; lia|]. split; [vm_compute; reflexivity|].
  unfold no_second_twice.
  replace (map snd (@time_log sdl3_desktop tiger_app [5000; 5001])) with [5; 5]
    by (vm_compute; reflexivity).
  intros Hnd. inversion Hnd as [|x l Hnotin _]; subst.
  apply Hnotin. left. reflexivity.
Qed.

Lemma SDL_AppInit_world_ok :
  store (run (@SDL_AppInit sdl3_desktop world_ok) None) = Some tiger_app.
Proof. reflexivity. Qed.

(** Six frames of [tiger_app] in which no rounded second is jumped. *)
Lemma SDL_AppIterate_time_lines_witness :
  iteration tiger_app = 0
  /\ @paced sdl3_desktop 0 [0; 400; 900; 1400; 1600; 2500]
  /\ map snd (@time_log sdl3_desktop tiger_app [0; 400; 900; 1400; 1600; 2500])
     = [1; 2; 3].
Proof.
  assert (Hp : @paced sdl3_desktop 0 [0; 400; 900; 1400; 1600; 2500]).
  { vm_compute. repeat split; first [left; reflexivity | right; reflexivity]. }
  split; [reflexivity|]. split; [exact Hp|].
  exact (proj1 (@SDL_AppIterate_time_lines sdl3_desktop tiger_app
                  [0; 400; 900; 1400; 1600; 2500] eq_refl Hp)).
Defined.

(** A mouse motion, an "a" key-down and an Escape key-up. *)
Lemma SDL_AppEvent_ignores_other_events_witness :
  Forall (fun e => ~ @is_quit_signal sdl3_desktop e
                   /\ ~ @is_escape_press sdl3_desktop e)
    [mouse_motion; key_a_down; escape_up]
  /\ @events sdl3_desktop tiger_app [mouse_motion; key_a_down; escape_up]
     = (tiger_app, [SDL_APP_CONTINUE; SDL_APP_CONTINUE; SDL_APP_CONTINUE]).
Proof.
  assert (Hes : Forall (fun e => ~ @is_quit_signal sdl3_desktop e
                                 /\ ~ @is_escape_press sdl3_desktop e)
                  [mouse_motion; key_a_down; escape_up]).
  { repeat constructor; unfold is_quit_signal, is_escape_press; cbn; lia. }
  split; [exact Hes|].
  exact (proj1 (@SDL_AppEvent_ignores_other_events sdl3_desktop tiger_app
                  [mouse_motion; key_a_down; escape_up] Hes)).
Defined.

(** Escape pressed, then the window closed and the mouse moved. *)
Lemma SDL_AppEvent_quit_is_sticky_witness :
  (@is_quit_signal sdl3_desktop escape_down
   \/ @is_escape_press sdl3_desktop escape_down)
  /\ app_quit
       (fst (@events sdl3_desktop
               (store (run (@SDL_AppEvent sdl3_desktop escape_down) tiger_app))
               [window_close; mouse_motion]))
     = SDL_APP_SUCCESS.
Proof.
  assert (He : @is_quit_signal sdl3_desktop escape_down
               \/ @is_escape_press sdl3_desktop escape_down).
  { right. split; reflexivity. }
  split; [exact He|].
  destruct (@SDL_AppEvent_quit_is_sticky sdl3_desktop tiger_app escape_down
              [window_close; mouse_motion] He) as (_ & _ & Hlater).
  exact Hlater.
Defined.

(** The window is closed and the frame drawn at tick 16 reports success;
    the mouse moves and it reports continue. *)
Lemma SDL_AppEvent_returns_continue_witness :
  (@is_quit_signal sdl3_desktop window_close
   \/ @is_escape_press sdl3_desktop window_close)
  /\ result (run (@SDL_AppIterate sdl3_desktop 16)
               (store (run (@SDL_AppEvent sdl3_desktop window_close) tiger_app)))
     = SDL_APP_SUCCESS
  /\ ~ @is_quit_signal sdl3_desktop mouse_motion
  /\ ~ @is_escape_press sdl3_desktop mouse_motion
  /\ result (run (@SDL_AppIterate sdl3_desktop 16)
               (store (run (@SDL_AppEvent sdl3_desktop mouse_motion) tiger_app)))
     = SDL_APP_CONTINUE.
Proof.
  assert (He : @is_quit_signal sdl3_desktop window_close
               \/ @is_escape_press sdl3_desktop window_close).
  { left. reflexivity. }
  assert (Hq : ~ @is_quit_signal sdl3_desktop mouse_motion).
  { unfold is_quit_signal. cbn. lia. }
  assert (Hk : ~ @is_escape_press sdl3_desktop mouse_motion).
  { unfold is_escape_press. cbn. lia. }
  destruct (@SDL_AppEvent_returns_continue sdl3_desktop)
    as (_ & _ & Hquit & Hother).
  split; [exact He|].
  split; [exact (proj2 (Hquit tiger_app window_close 16 He))|].
  split; [exact Hq|]. split; [exact Hk|].
  exact (proj2 (Hother tiger_app mouse_motion 16 Hq Hk)).
Defined.

(** The first frame after an initialisation in which every step succeeds. *)
Lemma SDL_AppIterate_returns_app_quit_witness :
  store (run (@SDL_AppInit sdl3_desktop world_ok) None) = Some tiger_app
  /\ result (run (@SDL_AppIterate sdl3_desktop 16) tiger_app) = SDL_APP_CONTINUE.
Proof.
  split; [reflexivity|].
  exact (proj2 (@SDL_AppIterate_returns_app_quit sdl3_desktop) world_ok
           tiger_app 16 eq_refl).
Defined.

(** The frame at tick 700, the first one to print a line. *)
Lemma SDL_AppIterate_frame_witness :
  in_int (iteration tiger_app)
  /\ app_quit (store (run (@SDL_AppIterate sdl3_desktop 700) tiger_app))
     = app_quit tiger_app
  /\ messageDest (store (run (@SDL_AppIterate sdl3_desktop 700) tiger_app))
     = messageDest tiger_app
  /\ (iteration (store (run (@SDL_AppIterate sdl3_desktop 700) tiger_app))
      = iteration tiger_app
      \/ iteration (store (run (@SDL_AppIterate sdl3_desktop 700) tiger_app))
         = iteration tiger_app + 1).
Proof.
  assert (Hi : in_int (iteration tiger_app)).
  { unfold in_int, INT_MIN, INT_MAX. cbn. lia. }
  split; [exact Hi|].
  destruct (@SDL_AppIterate_frame sdl3_desktop tiger_app 700 Hi)
    as (_ & _ & _ & _ & Hd & Hq & Hstep & _).
  split; [exact Hq|]. split; [exact Hd | exact Hstep].
Defined.

(** Pixel (3, 4) lies under the image and under the text. *)
Lemma SDL_AppIterate_draw_order_witness :
  tiger_sample (imageTex tiger_app) None (3, 4)
  = Some {| c_r := 0; c_g := 0; c_b := 255; c_a := 255 |}
  /\ tiger_sample (messageTex tiger_app) (Some (messageDest tiger_app)) (3, 4)
     = Some {| c_r := 200; c_g := 100; c_b := 100; c_a := 255 |}
  /\ presented
       (paint_all tiger_sample blank_screen
          (calls (run (@SDL_AppIterate sdl3_desktop 16) tiger_app))) (3, 4)
     = {| c_r := 200; c_g := 100; c_b := 100; c_a := 255 |}.
Proof.
  split; [reflexivity|]. split; [reflexivity|].
  exact (proj2 (@SDL_AppIterate_draw_order sdl3_desktop tiger_app 16)
           (Z * Z)%type tiger_sample blank_screen (3, 4) _ _ eq_refl eq_refl).
Defined.

(** * Further properties of the callbacks *)

(** ** Initialisation, step by step *)

Ltac init_unfold :=
  unfold failing_step, reached, checked_steps_succeed, init_app, queried_width,
    queried_height, init_messageTex, init_imageTex, init_surfaceMessage,
    init_svg_surface, init_font, init_renderer, init_basePath, init_window,
    init_flags in *;
  unfold SDL_AppInit, SDL_Fail; run_callback.

(** The outcomes of the six tests, in the order [SDL_AppInit] makes them,
    then the two window sizes of the path that passes them all. *)
Ltac init_sizes W :=
  destruct (ans_SDL_GetWindowSize W _) as [width height];
  destruct (ans_SDL_GetWindowSizeInPixels W _) as [bbwidth bbheight];
  cbn [fst snd] in *;
  destruct (width =? bbwidth).

Ltac init_cases W :=
  destruct (ans_SDL_Init W _);
  [ destruct (ans_TTF_Init W);
    [ destruct (is_null (ans_SDL_CreateWindow W _ _ _ _)) eqn:Ewindow;
      [ | destruct (is_null (ans_SDL_CreateRenderer W _ _)) eqn:Erenderer;
          [ | destruct ANDROID;
              [ destruct (is_null (ans_TTF_OpenFont W _ _)) eqn:Efont;
                [ | init_sizes W ]
              | destruct (ans_SDL_GetBasePath W) as [base|];
                [ destruct (is_null (ans_TTF_OpenFont W _ _)) eqn:Efont;
                  [ | init_sizes W ]
                | ] ] ] ]
    | ]
  | ];
  cbn [negb andb] in *.

Section InitSteps.
Context `{Platform}.

Lemma failing_step_checked (W : World) :
  checked_steps_succeed W
  = match failing_step W with None => true | Some _ => false end.
Proof.
  unfold failing_step, checked_steps_succeed.
  destruct (ans_SDL_Init W init_flags), (ans_TTF_Init W),
    (is_null (init_window W)), (is_null (init_renderer W));
    cbn [negb andb]; try reflexivity.
  unfold init_font. destruct (init_basePath W); [|reflexivity].
  destruct (is_null _); reflexivity.
Qed.

(** X1. [SDL_AppInit] has two outcomes only.  When none of its six tested
    steps fails it returns continue and [*appstate] holds the new state;
    when one fails it returns failure and [*appstate] is left empty.  It
    never returns success, and it returns continue exactly when it has
    stored a state. *)
Theorem SDL_AppInit_outcome :
  forall W : World,
    match failing_step W with
    | None => result (run (SDL_AppInit W) None) = SDL_APP_CONTINUE
              /\ store (run (SDL_AppInit W) None) = Some (init_app W)
    | Some _ => result (run (SDL_AppInit W) None) = SDL_APP_FAILURE
                /\ store (run (SDL_AppInit W) None) = None
    end
    /\ result (run (SDL_AppInit W) None) <> SDL_APP_SUCCESS
    /\ (result (run (SDL_AppInit W) None) = SDL_APP_CONTINUE
        <-> store (run (SDL_AppInit W) None) <> None).
Proof.
  intros W. destruct (SDL_AppInit_run W) as [Hr Hs].
  rewrite Hr, Hs, failing_step_checked.
  destruct (failing_step W); repeat split; try discriminate; try reflexivity;
    intros Hc; congruence.
Qed.

(** X2. [SDL_AppInit] stops at the first tested step that fails: each step
    up to and including that one is attempted by exactly one call (the
    base path is not asked for under [ANDROID]), no later step is
    attempted, and the run makes no call of any other kind than these
    attempts, the message box and the two calls of [SDL_Fail].  The error
    is fetched and logged exactly once, the log being the last call; a
    message box is opened, once, only when the failing step is
    [SDL_Init], the window or the renderer. *)
Theorem SDL_AppInit_stops_at_first_failure :
  forall (W : World) (st : init_step),
    failing_step W = Some st ->
    (forall st' : init_step,
        count (attempts st') (calls (run (SDL_AppInit W) None))
        = if reached st st' then 1%nat else 0%nat)
    /\ forallb failure_path_call (calls (run (SDL_AppInit W) None)) = true
    /\ count gets_error (calls (run (SDL_AppInit W) None)) = 1%nat
    /\ count logs_error (calls (run (SDL_AppInit W) None)) = 1%nat
    /\ last (calls (run (SDL_AppInit W) None)) Ext.SDL_Quit
       = Ext.SDL_LogError SDL_LOG_CATEGORY_CUSTOM "Error %s"
    /\ count shows_message_box (calls (run (SDL_AppInit W) None))
       = if with_message_box st then 1%nat else 0%nat.
Proof.
  intros W st. init_unfold. init_cases W; intros Hst;
    try discriminate Hst; injection Hst as <-;
    (split; [intros st'; destruct st'; first [reflexivity | destruct ANDROID; reflexivity]
          | repeat split; reflexivity]).
Qed.

(** X3. [SDL_AppInit] gives up nothing it has acquired for keeps: in no
    world does it destroy a window, a renderer or a texture or shut a
    library down, so a window or renderer created before a failing step
    stays as it is.  Its two temporaries are another matter: on the path
    that passes the six tests the font is closed exactly once and each of
    the two surfaces is handed to [SDL_DestroySurface], a null surface
    included; on a failing path neither call is made. *)
Theorem SDL_AppInit_cleanup :
  forall W : World,
    count tears_down (calls (run (SDL_AppInit W) None)) = 0%nat
    /\ count (closes_font (init_font W)) (calls (run (SDL_AppInit W) None))
       = match failing_step W with None => 1%nat | Some _ => 0%nat end
    /\ count destroys_surface (calls (run (SDL_AppInit W) None))
       = match failing_step W with None => 2%nat | Some _ => 0%nat end
    /\ match failing_step W with
       | None => In (Ext.SDL_DestroySurface (init_surfaceMessage W))
                    (calls (run (SDL_AppInit W) None))
                 /\ In (Ext.SDL_DestroySurface (init_svg_surface W))
                       (calls (run (SDL_AppInit W) None))
       | Some _ => True
       end.
Proof.
  intros W. init_unfold. unfold count.
  init_cases W;
    cbn [calls List.app filter tears_down closes_font destroys_surface List.length];
    rewrite ?Z.eqb_refl; cbn [List.length];
    repeat split; try reflexivity; in_trace.
Qed.

(** X15. On the path that stores a state, the high-DPI notice is logged
    exactly when the window's width differs from its width in pixels; the
    two heights play no part. *)
Theorem SDL_AppInit_highdpi_notice :
  forall W : World,
    count highdpi_notice (calls (run (SDL_AppInit W) None))
    = match failing_step W with
      | None =>
          if fst (ans_SDL_GetWindowSize W (init_window W))
             =? fst (ans_SDL_GetWindowSizeInPixels W (init_window W))
          then 0%nat else 1%nat
      | Some _ => 0%nat
      end.
Proof.
  intros W. init_unfold. init_cases W; reflexivity.
Qed.

End InitSteps.

Section InitState.
Context `{Platform}.

(** X4. A state [SDL_AppInit] stores always has a window and a renderer
    (neither is null), a counter of 0 and a pending result of continue.
    The renderer is the one created on that window, both textures are the
    uploads made to that renderer, the window has been shown, and the
    state was stored before vertical sync was requested.  Nothing is said
    of the textures being non-null: they are stored as answered. *)
Theorem SDL_AppInit_state :
  forall (W : World) (app : AppContext),
    store (run (SDL_AppInit W) None) = Some app ->
    is_null (window app) = false /\ is_null (renderer app) = false
    /\ iteration app = 0 /\ app_quit app = SDL_APP_CONTINUE
    /\ renderer app = ans_SDL_CreateRenderer W (window app) NULL
    /\ messageTex app
       = ans_SDL_CreateTextureFromSurface W 0%nat (renderer app) (init_surfaceMessage W)
    /\ imageTex app
       = ans_SDL_CreateTextureFromSurface W 1%nat (renderer app) (init_svg_surface W)
    /\ In (Ext.SDL_ShowWindow (window app)) (calls (run (SDL_AppInit W) None))
    /\ exists before : Trace,
         calls (run (SDL_AppInit W) None)
         = (before ++ [Ext.new_AppContext app;
                       Ext.SDL_SetRenderVSync (renderer app) (-1);
                       Ext.SDL_Log "Application started successfully!" []])%list.
Proof.
  intros W app. init_unfold.
  init_cases W; cbn [store calls]; intros Hst; try discriminate Hst;
    injection Hst as <-;
    cbn [window renderer messageTex imageTex iteration app_quit];
    (repeat split; try assumption; try reflexivity; [in_trace|]);
    match goal with
    | |- exists before, ?l = _ => exists (firstn (List.length l - 3) l)
    end; reflexivity.
Qed.

End InitState.

Section InitPaths.
Context `{Platform}.

(** X16. Under [ANDROID] [SDL_AppInit] never asks for the base path, and
    what [SDL_GetBasePath] would answer has no influence on the run.
    Every font it opens is opened as "bitcount.ttf" at size 28 and every
    image it loads is loaded as "gs_tiger.svg", by the bare file name; a
    run that returns continue has made both calls. *)
Theorem SDL_AppInit_android :
  forall W : World,
    ANDROID = true ->
    count (attempts step_basePath) (calls (run (SDL_AppInit W) None)) = 0%nat
    /\ (forall answer : option string,
           run (SDL_AppInit (with_basePath answer W)) None
           = run (SDL_AppInit W) None)
    /\ (forall (file : string) (ptsize : Z),
           In (Ext.TTF_OpenFont file ptsize) (calls (run (SDL_AppInit W) None)) ->
           file = "bitcount.ttf" /\ ptsize = 28)
    /\ (forall file : string,
           In (Ext.IMG_Load file) (calls (run (SDL_AppInit W) None)) ->
           file = "gs_tiger.svg")
    /\ (result (run (SDL_AppInit W) None) = SDL_APP_CONTINUE ->
        In (Ext.TTF_OpenFont "bitcount.ttf" 28) (calls (run (SDL_AppInit W) None))
        /\ In (Ext.IMG_Load "gs_tiger.svg") (calls (run (SDL_AppInit W) None))).
Proof.
  intros W HA. split; [|split].
  - revert HA. init_unfold. init_cases W; intros HA;
      first [discriminate HA | reflexivity].
  - intros answer. revert HA. init_unfold. cbn [with_basePath ans_SDL_Init
      ans_TTF_Init ans_SDL_CreateWindow ans_SDL_CreateRenderer ans_SDL_GetBasePath
      ans_TTF_OpenFont ans_TTF_RenderText_Solid ans_SDL_CreateTextureFromSurface
      ans_IMG_Load ans_SDL_GetTextureProperties ans_SDL_GetNumberProperty
      ans_SDL_GetWindowSize ans_SDL_GetWindowSizeInPixels].
    intros ->. reflexivity.
  - revert HA. init_unfold.
    init_cases W; intros HA; try discriminate HA;
      cbn [calls result List.app path_append ends_with_separator String.append In];
      (split; [|split]);
      try (intros file ptsize Hin; in_trace_inv Hin);
      try (intros file Hin; in_trace_inv Hin);
      try (intros Hres; first [discriminate Hres | split; in_trace]).
Qed.

(** X9. When initialisation fails at the renderer or at a later step, the
    window has been created (it is not null), [*appstate] is empty, and
    [SDL_AppQuit] called on what [SDL_AppInit] left therefore only shuts
    the libraries down: over both callbacks no call destroys the window. *)
Theorem failed_init_leaves_window :
  forall (W : World) (st : init_step) (q : SDL_AppResult),
    failing_step W = Some st ->
    (step_rank step_window < step_rank st)%nat ->
    is_null (init_window W) = false
    /\ count (attempts step_window) (calls (run (SDL_AppInit W) None)) = 1%nat
    /\ snd (run_void (SDL_AppQuit q) (store (run (SDL_AppInit W) None)))
       = [Ext.TTF_Quit; Ext.SDL_Log "Application quit successfully!" [];
          Ext.SDL_Quit]
    /\ forall p : ptr,
         count (destroys_window p)
           (calls (run (SDL_AppInit W) None)
            ++ snd (run_void (SDL_AppQuit q) (store (run (SDL_AppInit W) None))))%list
         = 0%nat.
Proof.
  intros W st q. init_unfold.
  init_cases W; intros Hst; try discriminate Hst; injection Hst as <-;
    cbn [step_rank]; intros Hrank; try lia;
    (repeat split; try assumption; reflexivity).
Qed.

End InitPaths.

(** ** Between initialisation and teardown *)

Section LifecycleFacts.
Context `{Platform}.

(** X5. Whatever the event, [SDL_AppEvent] touches nothing but the pending
    result, which it either keeps or sets to success, and it makes no call
    into the libraries. *)
Theorem SDL_AppEvent_frame :
  forall (app : AppContext) (e : SDL_Event),
    let app' := store (run (SDL_AppEvent e) app) in
    window app' = window app /\ renderer app' = renderer app
    /\ messageTex app' = messageTex app /\ imageTex app' = imageTex app
    /\ messageDest app' = messageDest app /\ iteration app' = iteration app
    /\ (app_quit app' = app_quit app \/ app_quit app' = SDL_APP_SUCCESS)
    /\ calls (run (SDL_AppEvent e) app) = [].
Proof.
  intros app e. cbv zeta. rewrite SDL_AppEvent_run. cbn [store calls].
  destruct (asks_to_quit e); repeat split; try reflexivity;
    [right | left]; reflexivity.
Qed.

Lemma callback_run_fields (app : AppContext) (cb : callback) :
  window (store (callback_run app cb)) = window app
  /\ renderer (store (callback_run app cb)) = renderer app
  /\ messageTex (store (callback_run app cb)) = messageTex app
  /\ imageTex (store (callback_run app cb)) = imageTex app
  /\ messageDest (store (callback_run app cb)) = messageDest app.
Proof.
  destruct cb as [e | now]; cbn [callback_run].
  - rewrite SDL_AppEvent_run. destruct (asks_to_quit e); repeat split; reflexivity.
  - rewrite SDL_AppIterate_run. destruct (_ <? _); repeat split; reflexivity.
Qed.

Lemma lifecycle_fields (cbs : list callback) (app : AppContext) :
  window (lifecycle app cbs) = window app
  /\ renderer (lifecycle app cbs) = renderer app
  /\ messageTex (lifecycle app cbs) = messageTex app
  /\ imageTex (lifecycle app cbs) = imageTex app
  /\ messageDest (lifecycle app cbs) = messageDest app.
Proof.
  revert app. induction cbs as [|cb cbs IH]; intros app; cbn [lifecycle].
  - repeat split; reflexivity.
  - destruct (IH (store (callback_run app cb))) as (H1 & H2 & H3 & H4 & H5).
    destruct (callback_run_fields app cb) as (G1 & G2 & G3 & G4 & G5).
    rewrite H1, H2, H3, H4, H5. repeat split; assumption.
Qed.

Lemma lifecycle_app_quit (cbs : list callback) (app : AppContext) :
  app_quit (lifecycle app cbs)
  = if existsb callback_asks_to_quit cbs then SDL_APP_SUCCESS else app_quit app.
Proof.
  revert app. induction cbs as [|cb cbs IH]; intros app; [reflexivity|].
  cbn [lifecycle existsb]. rewrite IH.
  destruct cb as [e | now]; cbn [callback_run callback_asks_to_quit].
  - rewrite SDL_AppEvent_run. cbn [store].
    destruct (asks_to_quit e); cbn [orb]; [|reflexivity].
    destruct (existsb _ cbs); reflexivity.
  - rewrite SDL_AppIterate_run. cbn [orb].
    destruct (_ <? _); reflexivity.
Qed.

(** X6. Over any sequence of events and frames the window, the renderer,
    both textures and the text rectangle stay what they were, and no
    callback of the sequence destroys anything or shuts a library down. *)
Theorem lifecycle_keeps_handles :
  forall (app : AppContext) (cbs : list callback),
    window (lifecycle app cbs) = window app
    /\ renderer (lifecycle app cbs) = renderer app
    /\ messageTex (lifecycle app cbs) = messageTex app
    /\ imageTex (lifecycle app cbs) = imageTex app
    /\ messageDest (lifecycle app cbs) = messageDest app
    /\ forall cb : callback,
         count tears_down (calls (callback_run (lifecycle app cbs) cb)) = 0%nat.
Proof.
  intros app cbs. destruct (lifecycle_fields cbs app) as (H1 & H2 & H3 & H4 & H5).
  repeat split; try assumption.
  intros [e | now]; cbn [callback_run].
  - rewrite SDL_AppEvent_run. reflexivity.
  - rewrite SDL_AppIterate_run. destruct (_ <? _); reflexivity.
Qed.

(** X7. After any sequence of events and frames the pending result is
    success if some event of the sequence was a quit signal or an Escape
    key-down, and otherwise what it was at the start; frames never change
    it, and the next [SDL_AppIterate] returns exactly that.  So it is
    either unchanged or success: the callbacks never set it to failure. *)
Theorem lifecycle_pending_result :
  forall (app : AppContext) (cbs : list callback) (now : Z),
    app_quit (lifecycle app cbs)
    = (if existsb callback_asks_to_quit cbs then SDL_APP_SUCCESS else app_quit app)
    /\ result (run (SDL_AppIterate now) (lifecycle app cbs))
       = (if existsb callback_asks_to_quit cbs then SDL_APP_SUCCESS
          else app_quit app)
    /\ (app_quit (lifecycle app cbs) = app_quit app
        \/ app_quit (lifecycle app cbs) = SDL_APP_SUCCESS).
Proof.
  intros app cbs now. pose proof (lifecycle_app_quit cbs app) as Hq.
  split; [exact Hq|]. split.
  - rewrite SDL_AppIterate_run. destruct (_ <? _); exact Hq.
  - rewrite Hq. destruct (existsb _ cbs); [right | left]; reflexivity.
Qed.

(** X8. After a successful initialisation and any sequence of events and
    frames, [SDL_AppQuit] destroys exactly the renderer and the window
    that [SDL_AppInit] created, neither of them null, the renderer
    first. *)
Theorem session_teardown :
  forall (W : World) (app : AppContext) (cbs : list callback) (q : SDL_AppResult),
    store (run (SDL_AppInit W) None) = Some app ->
    snd (run_void (SDL_AppQuit q) (Some (lifecycle app cbs)))
    = [Ext.SDL_DestroyRenderer (init_renderer W);
       Ext.SDL_DestroyWindow (init_window W);
       Ext.delete_AppContext (lifecycle app cbs); Ext.TTF_Quit;
       Ext.SDL_Log "Application quit successfully!" []; Ext.SDL_Quit]
    /\ is_null (init_renderer W) = false /\ is_null (init_window W) = false
    /\ count (attempts step_renderer) (calls (run (SDL_AppInit W) None)) = 1%nat
    /\ count (attempts step_window) (calls (run (SDL_AppInit W) None)) = 1%nat.
Proof.
  intros W app cbs q Hst.
  rewrite SDL_AppQuit_run_some. cbn [snd].
  destruct (lifecycle_fields cbs app) as (Hw & Hr & _). rewrite Hw, Hr.
  clear Hw Hr. revert Hst. init_unfold.
  init_cases W; cbn [store]; intros Hst; try discriminate Hst;
    injection Hst as <-; cbn [window renderer];
    (repeat split; try assumption; reflexivity).
Qed.

End LifecycleFacts.

(** ** The counter and the clock *)

Section CounterFacts.
Context `{Platform}.

Lemma max_second_floor (ticks : list Z) (floor : Z) :
  floor <= max_second floor ticks.
Proof.
  revert floor. induction ticks as [|t ts IH]; intros floor; cbn [max_second];
    [lia|]. specialize (IH (Z.max floor (seconds_of_ticks t))). lia.
Qed.

Lemma max_second_mono (ticks : list Z) (f1 f2 : Z) :
  f1 <= f2 -> max_second f1 ticks <= max_second f2 ticks.
Proof.
  revert f1 f2. induction ticks as [|t ts IH]; intros f1 f2 Hf; cbn [max_second];
    [exact Hf|]. apply IH. lia.
Qed.

(** X10. The lines of a run account for the counter: a frame prints at
    most one line, the number of lines printed is exactly the amount by
    which the counter has grown, and every line shows the rounded second
    of the call that printed it, a second above the counter the run
    started with. *)
Theorem time_log_accounting :
  forall (app : AppContext) (ticks : list Z),
    in_int (iteration app) ->
    Z.of_nat (List.length (time_log app ticks))
    = iteration (after_frames app ticks) - iteration app
    /\ (List.length (time_log app ticks) <= List.length ticks)%nat
    /\ forall t k, In (t, k) (time_log app ticks) ->
                   In t ticks /\ k = seconds_of_ticks t /\ iteration app < k.
Proof.
  intros app ticks. revert app.
  induction ticks as [|t ts IH]; intros app Hi.
  - cbn [after_frames]. repeat split; try contradiction; cbn; lia.
  - rewrite time_log_cons. cbn [after_frames].
    pose proof (SDL_AppIterate_iteration t app Hi) as Hstep.
    pose proof (seconds_of_ticks_in_int t) as Hs.
    assert (Hi' : in_int (iteration (store (run (SDL_AppIterate t) app)))).
    { rewrite Hstep. destruct (_ <? _) eqn:E; [|exact Hi].
      apply Z.ltb_lt in E. unfold in_int in *. lia. }
    destruct (IH _ Hi') as (IHn & IHl & IHin).
    rewrite length_app. rewrite Hstep in IHn, IHin.
    destruct (iteration app <? seconds_of_ticks t) eqn:E;
      cbn [List.length]; (split; [lia|]); (split; [lia|]);
      intros t0 k Hin; apply in_app_or in Hin; destruct Hin as [Hin | Hin];
      try contradiction.
    + destruct Hin as [Heq | []]. injection Heq as <- <-.
      apply Z.ltb_lt in E. split; [left; reflexivity|]. split; [reflexivity | exact E].
    + destruct (IHin _ _ Hin) as (Hin' & Hk & Hlt).
      split; [right; exact Hin'|]. split; [exact Hk | lia].
    + destruct (IHin _ _ Hin) as (Hin' & Hk & Hlt).
      split; [right; exact Hin'|]. split; [exact Hk | lia].
Qed.

(** X17. The counter never runs ahead of the clock: after any run it is at
    most the largest rounded second a call has seen, or its starting
    value if that is larger. *)
Theorem counter_never_ahead :
  forall (app : AppContext) (ticks : list Z),
    in_int (iteration app) ->
    iteration app <= iteration (after_frames app ticks)
    /\ iteration (after_frames app ticks) <= max_second (iteration app) ticks.
Proof.
  intros app ticks Hi. split; [apply after_frames_in_int; exact Hi|].
  revert app Hi. induction ticks as [|t ts IH]; intros app Hi;
    cbn [after_frames max_second]; [lia|].
  pose proof (SDL_AppIterate_iteration t app Hi) as Hstep.
  pose proof (seconds_of_ticks_in_int t) as Hs.
  assert (Hi' : in_int (iteration (store (run (SDL_AppIterate t) app)))).
  { rewrite Hstep. destruct (_ <? _) eqn:E; [|exact Hi].
    apply Z.ltb_lt in E. unfold in_int in *. lia. }
  specialize (IH _ Hi').
  eapply Z.le_trans; [exact IH|]. apply max_second_mono.
  rewrite Hstep. destruct (_ <? _) eqn:E; [apply Z.ltb_lt in E|]; lia.
Qed.

(** X11. Catching up: when every call of a run falls in the same rounded
    second s, the line for s is printed by each call in turn until the
    counter has reached s, that is min (number of calls, s - counter)
    times, and not at all when the counter is already at s or beyond. *)
Theorem time_log_catch_up :
  forall (app : AppContext) (ticks : list Z) (s : Z),
    in_int (iteration app) ->
    Forall (fun t => seconds_of_ticks t = s) ticks ->
    map snd (time_log app ticks)
    = repeat s (Nat.min (List.length ticks) (Z.to_nat (s - iteration app))).
Proof.
  intros app ticks s Hi Hall. revert app Hi.
  induction Hall as [|t ts Ht _ IH]; intros app Hi; [reflexivity|].
  rewrite time_log_cons, map_app.
  pose proof (SDL_AppIterate_iteration t app Hi) as Hstep.
  pose proof (seconds_of_ticks_in_int t) as Hs.
  assert (Hi' : in_int (iteration (store (run (SDL_AppIterate t) app)))).
  { rewrite Hstep. destruct (_ <? _) eqn:E; [|exact Hi].
    apply Z.ltb_lt in E. unfold in_int in *. lia. }
  rewrite (IH _ Hi'), Hstep, Ht. cbn [List.length].
  destruct (iteration app <? s) eqn:E.
  - apply Z.ltb_lt in E. cbn [map snd List.app].
    replace (Z.to_nat (s - iteration app))
      with (S (Z.to_nat (s - (iteration app + 1)))) by lia.
    reflexivity.
  - apply Z.ltb_ge in E. cbn [map List.app].
    replace (Z.to_nat (s - iteration app)) with 0%nat by lia.
    rewrite !Nat.min_0_r. reflexivity.
Qed.

(** X12. During the first 16.384 seconds the rounded second is the
    elapsed time in milliseconds rounded to the nearest thousand, halves
    going up: second k is what a call sees from 500 ms before the k-th
    whole second until just under 500 ms after it. *)
Theorem seconds_of_ticks_half_second_marks :
  forall t k : Z,
    0 <= t < 16384 ->
    seconds_of_ticks t = (t + 500) / 1000
    /\ (seconds_of_ticks t = k <-> 1000 * k - 500 <= t < 1000 * k + 500).
Proof.
  intros t k Ht. rewrite (seconds_of_ticks_early t Ht).
  split; [reflexivity|]. split; intros Hk; Z.div_mod_to_equations; lia.
Qed.

Lemma spaced_last (ticks : list Z) (gap prev : Z) :
  0 <= gap -> spaced gap prev ticks -> prev <= last ticks prev.
Proof.
  intros Hg. revert prev. induction ticks as [|t ts IH]; intros prev Hsp;
    [cbn; lia|].
  destruct Hsp as [Ht Hsp]. specialize (IH t Hsp).
  destruct ts as [|t' ts']; [cbn; lia|].
  cbn [last] in *. destruct ts' as [|t'' ts'']; [destruct Hsp; lia|].
  assert (Hl : forall d1 d2, last (t'' :: ts'') d1 = last (t'' :: ts'') d2).
  { clear. generalize t''. induction ts'' as [|x xs IHx]; intros y d1 d2;
      [reflexivity|]. cbn [last]. apply (IHx x). }
  rewrite (Hl prev t). lia.
Qed.

Lemma Forall_last {A : Type} (P : A -> Prop) (l : list A) (d : A) :
  l <> [] -> Forall P l -> P (last l d).
Proof.
  intros Hne Hall. induction Hall as [|x xs Hx Hxs IH]; [contradiction|].
  destruct xs as [|y ys]; [exact Hx|]. apply IH. discriminate.
Qed.

(** X13. During the first 16.384 seconds, when the first call comes within
    a second of tick 0 and every later call at most a second after the one
    before it, with ticks not decreasing, the seconds printed are
    1, 2, ..., n with n the last tick rounded to the nearest second: no
    second is skipped and none is printed twice. *)
Theorem time_log_spaced :
  forall (app : AppContext) (ticks : list Z),
    iteration app = 0 ->
    Forall (fun t => t < 16384) ticks ->
    spaced 1000 0 ticks ->
    map snd (time_log app ticks)
    = Zseq 1 (Z.to_nat ((last ticks 0 + 500) / 1000)).
Proof.
  intros app ticks H0 Hall Hsp.
  assert (Hp : paced (iteration app) ticks).
  { rewrite H0. apply (spaced_paced ticks 0); [lia | exact Hall | exact Hsp]. }
  destruct (time_log_paced ticks app Hp) as (_ & Hlog & _ & Hlast).
  rewrite Hlog. destruct ticks as [|t ts].
  { cbn [after_frames]. rewrite H0. reflexivity. }
  rewrite H0, Hlast by discriminate. rewrite seconds_of_ticks_early.
  - rewrite Z.sub_0_r. reflexivity.
  - split.
    + apply (spaced_last (t :: ts) 1000 0); [lia | exact Hsp].
    + apply (Forall_last (fun t => t < 16384)); [discriminate | exact Hall].
Qed.

End CounterFacts.

(** ** What a frame shows *)

Section FramePicture.
Context `{Platform}.

(** X14. Painted in the order it is issued, a frame overwrites the whole
    screen: each pixel is presented with the text texture's colour where
    the text covers it, else with the image's colour where the image
    covers it, else opaque white.  So the picture does not depend on what
    the screen held before, and the frame after it, whenever it comes,
    presents the same picture. *)
Theorem frame_overwrites_screen :
  forall (app : AppContext) (now later : Z) (Pixel : Type)
         (sample : ptr -> option SDL_FRect -> Pixel -> option SDL_Color)
         (s s' : Screen Pixel) (p : Pixel),
    presented (paint_all sample s (calls (run (SDL_AppIterate now) app))) p
    = match sample (messageTex app) (Some (messageDest app)) p with
      | Some c => c
      | None =>
          match sample (imageTex app) None p with
          | Some c => c
          | None => {| c_r := 255; c_g := 255; c_b := 255; c_a := SDL_ALPHA_OPAQUE |}
          end
      end
    /\ presented (paint_all sample s' (calls (run (SDL_AppIterate now) app))) p
       = presented (paint_all sample s (calls (run (SDL_AppIterate now) app))) p
    /\ presented
         (paint_all sample s'
            (calls (run (SDL_AppIterate later)
                      (store (run (SDL_AppIterate now) app))))) p
       = presented (paint_all sample s (calls (run (SDL_AppIterate now) app))) p.
Proof.
  intros app now later Pixel sample s s' p.
  assert (Hframe : forall (a : AppContext) (n : Z) (s0 : Screen Pixel),
             presented (paint_all sample s0 (calls (run (SDL_AppIterate n) a))) p
             = presented (paint_all sample s0 (drawing_calls a)) p).
  { intros a n s0. rewrite SDL_AppIterate_run. destruct (_ <? _); reflexivity. }
  rewrite !Hframe, !paint_all_drawing_calls.
  split; [reflexivity|]. split; [reflexivity|].
  rewrite SDL_AppIterate_run. destruct (_ <? _); reflexivity.
Qed.

End FramePicture.

(** ** Concrete runs of the further properties *)

(** The renderer cannot be created: three steps attempted, one box. *)
Lemma SDL_AppInit_stops_at_first_failure_witness :
  @failing_step sdl3_desktop world_no_renderer = Some step_renderer
  /\ count (attempts step_window)
       (calls (run (@SDL_AppInit sdl3_desktop world_no_renderer) None)) = 1%nat
  /\ count (attempts step_font)
       (calls (run (@SDL_AppInit sdl3_desktop world_no_renderer) None)) = 0%nat
  /\ count shows_message_box
       (calls (run (@SDL_AppInit sdl3_desktop world_no_renderer) None)) = 1%nat.
Proof.
  split; [reflexivity|].
  destruct (@SDL_AppInit_stops_at_first_failure sdl3_desktop world_no_renderer
              step_renderer eq_refl) as (Hsteps & _ & _ & _ & _ & Hbox).
  split; [exact (Hsteps step_window)|].
  split; [exact (Hsteps step_font) | exact Hbox].
Defined.

Lemma SDL_AppInit_state_witness :
  store (run (@SDL_AppInit sdl3_desktop world_ok) None) = Some tiger_app
  /\ is_null (window tiger_app) = false /\ is_null (renderer tiger_app) = false.
Proof.
  split; [reflexivity|].
  destruct (@SDL_AppInit_state sdl3_desktop world_ok tiger_app eq_refl)
    as (Hw & Hr & _).
  split; [exact Hw | exact Hr].
Defined.

Lemma SDL_AppInit_android_witness :
  @ANDROID sdl3_android = true
  /\ In (Ext.TTF_OpenFont "bitcount.ttf" 28)
        (calls (run (@SDL_AppInit sdl3_android world_ok) None))
  /\ In (Ext.IMG_Load "gs_tiger.svg")
        (calls (run (@SDL_AppInit sdl3_android world_ok) None))
  /\ count (attempts step_basePath)
       (calls (run (@SDL_AppInit sdl3_android world_ok) None)) = 0%nat.
Proof.
  split; [reflexivity|].
  destruct (@SDL_AppInit_android sdl3_android world_ok eq_refl)
    as (Hcount & _ & _ & _ & Hmade).
  destruct (Hmade eq_refl) as [Hfont Himage].
  split; [exact Hfont|]. split; [exact Himage | exact Hcount].
Defined.

Lemma failed_init_leaves_window_witness :
  @failing_step sdl3_desktop world_no_renderer = Some step_renderer
  /\ (step_rank step_window < step_rank step_renderer)%nat
  /\ is_null (@init_window sdl3_desktop world_no_renderer) = false
  /\ count (destroys_window (@init_window sdl3_desktop world_no_renderer))
       (calls (run (@SDL_AppInit sdl3_desktop world_no_renderer) None)
        ++ snd (run_void (SDL_AppQuit SDL_APP_FAILURE)
                  (store (run (@SDL_AppInit sdl3_desktop world_no_renderer) None))))%list
     = 0%nat.
Proof.
  assert (Hrank : (step_rank step_window < step_rank step_renderer)%nat)
    by (cbn; lia).
  split; [reflexivity|]. split; [exact Hrank|].
  destruct (@failed_init_leaves_window sdl3_desktop world_no_renderer
              step_renderer SDL_APP_FAILURE eq_refl Hrank) as (Hw & _ & _ & Hnone).
  split; [exact Hw | exact (Hnone _)].
Defined.

Lemma session_teardown_witness :
  store (run (@SDL_AppInit sdl3_desktop world_ok) None) = Some tiger_app
  /\ snd (run_void (SDL_AppQuit SDL_APP_SUCCESS)
            (Some (@lifecycle sdl3_desktop tiger_app tiger_session)))
     = [Ext.SDL_DestroyRenderer 0x2000; Ext.SDL_DestroyWindow 0x1000;
        Ext.delete_AppContext (@lifecycle sdl3_desktop tiger_app tiger_session);
        Ext.TTF_Quit; Ext.SDL_Log "Application quit successfully!" [];
        Ext.SDL_Quit].
Proof.
  split; [reflexivity|].
  exact (proj1 (@session_teardown sdl3_desktop world_ok tiger_app tiger_session
                  SDL_APP_SUCCESS eq_refl)).
Defined.

Lemma tiger_app_in_int : in_int (iteration tiger_app).
Proof. unfold in_int, INT_MIN, INT_MAX. cbn. lia. Defined.

(** Three calls in the fifth second, counter at 0. *)
Lemma time_log_accounting_witness :
  in_int (iteration tiger_app)
  /\ Z.of_nat (List.length (@time_log sdl3_desktop tiger_app [5000; 5001; 5002]))
     = iteration (@after_frames sdl3_desktop tiger_app [5000; 5001; 5002])
       - iteration tiger_app.
Proof.
  split; [exact tiger_app_in_int|].
  exact (proj1 (@time_log_accounting sdl3_desktop tiger_app [5000; 5001; 5002]
                  tiger_app_in_int)).
Defined.

Lemma counter_never_ahead_witness :
  in_int (iteration tiger_app)
  /\ iteration (@after_frames sdl3_desktop tiger_app [5000; 5001; 5002])
     <= @max_second sdl3_desktop (iteration tiger_app) [5000; 5001; 5002].
Proof.
  split; [exact tiger_app_in_int|].
  exact (proj2 (@counter_never_ahead sdl3_desktop tiger_app [5000; 5001; 5002]
                  tiger_app_in_int)).
Defined.

Lemma time_log_catch_up_witness :
  in_int (iteration tiger_app)
  /\ Forall (fun t => @seconds_of_ticks sdl3_desktop t = 5) [5000; 5001; 5002]
  /\ map snd (@time_log sdl3_desktop tiger_app [5000; 5001; 5002]) = [5; 5; 5].
Proof.
  assert (Hall : Forall (fun t => @seconds_of_ticks sdl3_desktop t = 5)
                   [5000; 5001; 5002]).
  { repeat constructor; vm_compute; reflexivity. }
  split; [exact tiger_app_in_int|]. split; [exact Hall|].
  exact (@time_log_catch_up sdl3_desktop tiger_app [5000; 5001; 5002] 5
           tiger_app_in_int Hall).
Defined.

Lemma seconds_of_ticks_half_second_marks_witness :
  0 <= 1500 < 16384 /\ @seconds_of_ticks sdl3_desktop 1500 = (1500 + 500) / 1000.
Proof.
  assert (Ht : 0 <= 1500 < 16384) by lia.
  split; [exact Ht|].
  exact (proj1 (@seconds_of_ticks_half_second_marks sdl3_desktop 1500 2 Ht)).
Defined.

(** Five calls, never more than a second apart. *)
Lemma time_log_spaced_witness :
  iteration tiger_app = 0
  /\ Forall (fun t => t < 16384) [0; 400; 1400; 2400; 3200]
  /\ spaced 1000 0 [0; 400; 1400; 2400; 3200]
  /\ map snd (@time_log sdl3_desktop tiger_app [0; 400; 1400; 2400; 3200])
     = [1; 2; 3].
Proof.
  assert (Hall : Forall (fun t => t < 16384) [0; 400; 1400; 2400; 3200])
    by (repeat constructor; lia).
  assert (Hsp : spaced 1000 0 [0; 400; 1400; 2400; 3200])
    by (cbn; lia).
  split; [reflexivity|]. split; [exact Hall|]. split; [exact Hsp|].
  exact (@time_log_spaced sdl3_desktop tiger_app [0; 400; 1400; 2400; 3200]
           eq_refl Hall Hsp).
Defined.

Section StoredTextures.
Context `{Platform}.

(** X18. No callback tests the textures: after a successful
    initialisation and any sequence of events and frames, a frame draws
    with the renderer and the two textures exactly as [SDL_AppInit] stored
    them, a texture that came back null included. *)
Theorem frames_draw_stored_textures :
  forall (W : World) (app : AppContext) (cbs : list callback) (now : Z),
    store (run (SDL_AppInit W) None) = Some app ->
    filter is_drawing (calls (run (SDL_AppIterate now) (lifecycle app cbs)))
    = [Ext.SDL_SetRenderDrawColor (init_renderer W) 255 255 255 SDL_ALPHA_OPAQUE;
       Ext.SDL_RenderClear (init_renderer W);
       Ext.SDL_RenderTexture (init_renderer W) (init_imageTex W) None None;
       Ext.SDL_RenderTexture (init_renderer W) (init_messageTex W) None
         (Some (messageDest (init_app W)));
       Ext.SDL_RenderPresent (init_renderer W)].
Proof.
  intros W app cbs now Hst. apply SDL_AppInit_stored in Hst.
  destruct Hst as [_ ->].
  destruct (lifecycle_fields cbs (init_app W)) as (_ & Hr & Hm & Hi & Hd).
  rewrite SDL_AppIterate_run.
  assert (Hdraw : filter is_drawing (drawing_calls (lifecycle (init_app W) cbs))
                  = drawing_calls (init_app W)).
  { unfold drawing_calls. rewrite Hr, Hm, Hi, Hd. reflexivity. }
  destruct (_ <? _); cbn [calls filter is_drawing]; exact Hdraw.
Qed.

End StoredTextures.

(** The image is missing: every frame draws a null texture. *)
Lemma frames_draw_stored_textures_witness :
  store (run (@SDL_AppInit sdl3_desktop world_missing_image) None)
  = Some (@init_app sdl3_desktop world_missing_image)
  /\ In (Ext.SDL_RenderTexture 0x2000 NULL None None)
        (filter is_drawing
           (calls (run (@SDL_AppIterate sdl3_desktop 716)
                     (@lifecycle sdl3_desktop
                        (@init_app sdl3_desktop world_missing_image)
                        tiger_session)))).
Proof.
  split; [reflexivity|].
  rewrite (@frames_draw_stored_textures sdl3_desktop world_missing_image
             (@init_app sdl3_desktop world_missing_image) tiger_session 716 eq_refl).
  right. right. left. reflexivity.
Defined.

(** ** Teardown, as the library sees it *)

Section ReleaseFacts.
Context `{Platform}.

Lemma releases_init (W : World) (assoc : ptr -> list ptr) :
  releases assoc (calls (run (SDL_AppInit W) None)) = [].
Proof. init_unfold. init_cases W; reflexivity. Qed.

Lemma releases_callback (assoc : ptr -> list ptr) (state : AppContext)
    (cb : callback) :
  releases assoc (calls (callback_run state cb)) = [].
Proof.
  destruct cb as [e | now]; cbn [callback_run].
  - rewrite SDL_AppEvent_run. reflexivity.
  - rewrite SDL_AppIterate_run. destruct (_ <? _); reflexivity.
Qed.

(** The textures [SDL_AppInit] has created on the renderer it stores are
    the two it stores, those that are not null. *)
Lemma associated_init (W : World) (app : AppContext) :
  store (run (SDL_AppInit W) None) = Some app ->
  associated W (calls (run (SDL_AppInit W) None)) (renderer app)
  = filter (fun tex => negb (is_null tex)) [messageTex app; imageTex app].
Proof.
  init_unfold. unfold associated.
  init_cases W; cbn [store calls]; intros Hst; try discriminate Hst;
    injection Hst as <-;
    cbn [renderer messageTex imageTex List.app uploads filter fst snd map];
    rewrite !Z.eqb_refl; cbn [andb];
    destruct (is_null (ans_SDL_CreateTextureFromSurface W 0 _ _)),
      (is_null (ans_SDL_CreateTextureFromSurface W 1 _ _)); reflexivity.
Qed.

(** C2. After a successful initialisation and any sequence of events and
    frames, [SDL_AppQuit] releases every handle the state owns exactly
    once and in dependency order: the renderer, with it the textures that
    were created on it (the text texture and the image texture, each if it
    is a texture at all, that is not null), then the window, and only then
    the text subsystem and the library are shut down; the state object is
    freed.  The two textures are taken to be two objects: a text texture
    that is not null is not the image texture.  Nothing is released before, by [SDL_AppInit] or by a callback.
    With no state, [SDL_AppQuit] releases no resource and the two
    shutdowns still take place. *)
Theorem SDL_AppQuit_releases_owned_handles :
  forall (W : World) (app : AppContext) (cbs : list callback) (q : SDL_AppResult),
    store (run (SDL_AppInit W) None) = Some app ->
    (is_null (messageTex app) = false -> messageTex app <> imageTex app) ->
    let assoc := associated W (calls (run (SDL_AppInit W) None)) in
    let gone :=
      releases assoc (snd (run_void (SDL_AppQuit q) (Some (lifecycle app cbs)))) in
    gone
    = (rel_renderer (renderer app)
       :: map rel_texture
            (filter (fun tex => negb (is_null tex)) [messageTex app; imageTex app])
       ++ [rel_window (window app); rel_ttf; rel_sdl])%list
    /\ times (rel_renderer (renderer app)) gone = 1%nat
    /\ times (rel_window (window app)) gone = 1%nat
    /\ times (rel_texture (messageTex app)) gone
       = (if is_null (messageTex app) then 0%nat else 1%nat)
    /\ times (rel_texture (imageTex app)) gone
       = (if is_null (imageTex app) then 0%nat else 1%nat)
    /\ fst (run_void (SDL_AppQuit q) (Some (lifecycle app cbs))) = None
    /\ releases assoc (calls (run (SDL_AppInit W) None)) = []
    /\ (forall (state : AppContext) (cb : callback),
           releases assoc (calls (callback_run state cb)) = [])
    /\ run_void (SDL_AppQuit q) None
       = (None,
          [Ext.TTF_Quit; Ext.SDL_Log "Application quit successfully!" [];
           Ext.SDL_Quit])
    /\ releases assoc (snd (run_void (SDL_AppQuit q) None)) = [rel_ttf; rel_sdl].
Proof.
  intros W app cbs q Hst Hne. cbv zeta.
  pose proof (associated_init W app Hst) as Hassoc.
  destruct (lifecycle_fields cbs app) as (Hw & Hr & _).
  rewrite SDL_AppQuit_run_some, SDL_AppQuit_run_none. cbn [fst snd].
  assert (Hgone :
    releases (associated W (calls (run (SDL_AppInit W) None)))
      [Ext.SDL_DestroyRenderer (renderer (lifecycle app cbs));
       Ext.SDL_DestroyWindow (window (lifecycle app cbs));
       Ext.delete_AppContext (lifecycle app cbs); Ext.TTF_Quit;
       Ext.SDL_Log "Application quit successfully!" []; Ext.SDL_Quit]
    = (rel_renderer (renderer app)
       :: map rel_texture
            (filter (fun tex => negb (is_null tex)) [messageTex app; imageTex app])
       ++ [rel_window (window app); rel_ttf; rel_sdl])%list).
  { unfold releases. cbn [flat_map released_by List.app].
    rewrite Hw, Hr, Hassoc. reflexivity. }
  rewrite Hgone.
  assert (Hmi : is_null (messageTex app) && is_null (imageTex app) = false ->
                (messageTex app =? imageTex app) = false
                /\ (imageTex app =? messageTex app) = false).
  { intros Hnn. rewrite !Z.eqb_neq.
    destruct (is_null (messageTex app)) eqn:Em.
    - destruct (is_null (imageTex app)) eqn:Ei; [discriminate Hnn|].
      unfold is_null, NULL in Em, Ei.
      apply Z.eqb_eq in Em. apply Z.eqb_neq in Ei. lia.
    - specialize (Hne eq_refl). lia. }
  split; [reflexivity|].
  unfold times. cbn [filter].
  destruct (is_null (messageTex app)), (is_null (imageTex app));
    cbn [andb] in Hmi; try (destruct (Hmi eq_refl) as [Hm Hi]);
    cbn [filter negb map List.app release_eqb List.length];
    rewrite ?Z.eqb_refl, ?Hm, ?Hi; cbn [List.length];
    (repeat split; try reflexivity;
     first [apply releases_init | intros; apply releases_callback]).
Qed.

End ReleaseFacts.

Lemma SDL_AppQuit_releases_owned_handles_witness :
  store (run (@SDL_AppInit sdl3_desktop world_ok) None) = Some tiger_app
  /\ (is_null (messageTex tiger_app) = false ->
      messageTex tiger_app <> imageTex tiger_app)
  /\ releases
       (associated world_ok (calls (run (@SDL_AppInit sdl3_desktop world_ok) None)))
       (snd (run_void (SDL_AppQuit SDL_APP_SUCCESS)
               (Some (@lifecycle sdl3_desktop tiger_app tiger_session))))
     = [rel_renderer 0x2000; rel_texture 0x5000; rel_texture 0x6000;
        rel_window 0x1000; rel_ttf; rel_sdl].
Proof.
  assert (Hne : is_null (messageTex tiger_app) = false ->
                messageTex tiger_app <> imageTex tiger_app)
    by (intros _; cbn; lia).
  split; [reflexivity|]. split; [exact Hne|].
  exact (proj1 (@SDL_AppQuit_releases_owned_handles sdl3_desktop world_ok
                  tiger_app tiger_session SDL_APP_SUCCESS eq_refl Hne)).
Defined.

(** ** The text rectangle *)

Section RectangleClaim.
Context `{Platform}.

(** C6. In the state [SDL_AppInit] stores, the rectangle sits at (0, 0)
    and its width and height are the text texture's queried pixel width
    and height converted to [float] (an exact conversion below 2^24); the
    texture is queried by one properties call and one read per dimension,
    in [SDL_AppInit] only.  From then on nothing changes or recomputes it:
    in whatever state they run, [SDL_AppEvent] and [SDL_AppIterate] leave
    the rectangle as they found it and query no texture, so after any
    sequence of events and frames it is still the rectangle of
    initialisation; [SDL_AppQuit] queries nothing and frees the state as
    it is. *)
Theorem messageDest_set_once :
  forall (W : World) (app : AppContext),
    store (run (SDL_AppInit W) None) = Some app ->
    messageDest app
    = {| rect_x := float_of_Z 0; rect_y := float_of_Z 0;
         rect_w := float_of_Z (queried_width W (messageTex app));
         rect_h := float_of_Z (queried_height W (messageTex app)) |}
    /\ (- 2 ^ 24 < queried_width W (messageTex app) < 2 ^ 24 ->
        Z_of_float (rect_w (messageDest app))
        = Some (queried_width W (messageTex app)))
    /\ (- 2 ^ 24 < queried_height W (messageTex app) < 2 ^ 24 ->
        Z_of_float (rect_h (messageDest app))
        = Some (queried_height W (messageTex app)))
    /\ count queries_texture (calls (run (SDL_AppInit W) None)) = 3%nat
    /\ In (Ext.SDL_GetTextureProperties (messageTex app))
          (calls (run (SDL_AppInit W) None))
    /\ (forall (state : AppContext) (e : SDL_Event),
           messageDest (store (run (SDL_AppEvent e) state)) = messageDest state
           /\ count queries_texture (calls (run (SDL_AppEvent e) state)) = 0%nat)
    /\ (forall (state : AppContext) (now : Z),
           messageDest (store (run (SDL_AppIterate now) state)) = messageDest state
           /\ count queries_texture (calls (run (SDL_AppIterate now) state)) = 0%nat)
    /\ (forall cbs : list callback,
           messageDest (lifecycle app cbs) = messageDest app)
    /\ (forall (state : AppContext) (q : SDL_AppResult),
           In (Ext.delete_AppContext state)
              (snd (run_void (SDL_AppQuit q) (Some state)))
           /\ count queries_texture
                (snd (run_void (SDL_AppQuit q) (Some state))) = 0%nat)
    /\ (forall q : SDL_AppResult,
           count queries_texture (snd (run_void (SDL_AppQuit q) None)) = 0%nat).
Proof.
  intros W app Hst. apply SDL_AppInit_stored in Hst. destruct Hst as [Hok ->].
  destruct (SDL_AppInit_queries W Hok) as [Hcount Hin].
  cbn [init_app messageDest messageTex rect_w rect_h].
  split; [reflexivity|]. split; [apply float_of_Z_exact|].
  split; [apply float_of_Z_exact|]. split; [exact Hcount|].
  split; [exact Hin|]. split; [|split; [|split; [|split]]].
  - intros state e. rewrite SDL_AppEvent_run. cbn [store calls].
    split; [destruct (asks_to_quit e); reflexivity | reflexivity].
  - intros state now. rewrite SDL_AppIterate_run.
    destruct (_ <? _); split; reflexivity.
  - intros cbs.
    destruct (lifecycle_fields cbs (init_app W)) as (_ & _ & _ & _ & Hd).
    exact Hd.
  - intros state q. rewrite SDL_AppQuit_run_some. split; [in_trace | reflexivity].
  - intros q. reflexivity.
Qed.

End RectangleClaim.

(** The 187 x 34 text texture of [world_ok], after a session. *)
Lemma messageDest_set_once_witness :
  store (run (@SDL_AppInit sdl3_desktop world_ok) None) = Some tiger_app
  /\ Z_of_float (rect_w (messageDest tiger_app)) = Some 187
  /\ Z_of_float (rect_h (messageDest tiger_app)) = Some 34
  /\ messageDest (@lifecycle sdl3_desktop tiger_app tiger_session)
     = messageDest tiger_app.
Proof.
  split; [reflexivity|].
  destruct (@messageDest_set_once sdl3_desktop world_ok tiger_app eq_refl)
    as (_ & Hw & Hh & _ & _ & _ & _ & Hkeep & _).
  split; [apply Hw; cbn; lia|].
  split; [apply Hh; cbn; lia | exact (Hkeep tiger_session)].
Defined.
